(** * PDF2MindMap: a shallow embedding of [app.py]

    The application is sequential glue around opaque collaborators (PyPDF2,
    pdf2image, pytesseract, the Gemini client, streamlit).  The embedding
    keeps the glue as it is written and takes the collaborators' answers as
    data:

    - a Python [str] is a list of Unicode code points;
    - [str.strip], [str.split], [str.join] and [str.replace] are executable
      functions on such lists;
    - a function that talks to the outside is a computation in a small
      state-and-exception monad whose state holds the files on disk, the
      trace of calls made to the collaborators, and the one local variable
      ([temp_file_path]) that is read in a [finally] block. *)

From Stdlib Require Import List NArith ZArith Bool Lia String Ascii DecimalString.
Import ListNotations.

(** ** Python strings *)

Module Py.

(** A character is a Unicode code point. *)
Definition char := N.
Definition str := list char.

(** An ASCII literal of the source, as code points. *)
Definition lit (s : string) : str :=
  map N_of_ascii (list_ascii_of_string s).
Arguments lit s%_string.

Definition NL : char := 10%N.        (* "\n" *)
Definition DQ : char := 34%N.        (* the double quote *)
Definition DOLLAR : char := 36%N.
Definition BACKSLASH : char := 92%N.
Definition BACKTICK : char := 96%N.
Definition LBRACE : char := 123%N.

(** [str.isspace] on one character: the code points CPython lists in
    [_PyUnicode_IsWhitespace]. *)
Definition isspace (c : char) : bool :=
  ((9 <=? c) && (c <=? 13) || (28 <=? c) && (c <=? 32)
   || (c =? 133) || (c =? 160) || (c =? 5760)
   || (8192 <=? c) && (c <=? 8202)
   || (c =? 8232) || (c =? 8233) || (c =? 8239) || (c =? 8287)
   || (c =? 12288))%N.

Fixpoint dropwhile {A : Type} (p : A -> bool) (l : list A) : list A :=
  match l with
  | [] => []
  | x :: l' => if p x then dropwhile p l' else l
  end.

(** [s.lstrip()], [s.rstrip()] and [s.strip()] with no argument. *)
Definition lstrip (s : str) : str := dropwhile isspace s.
Definition rstrip (s : str) : str := rev (dropwhile isspace (rev s)).
Definition strip (s : str) : str := rstrip (lstrip s).

(** [sep.join(parts)]. *)
Fixpoint join (sep : str) (parts : list str) : str :=
  match parts with
  | [] => []
  | [p] => p
  | p :: ps => p ++ sep ++ join sep ps
  end.

(** [s.split(sep)] for a separator of one character: every occurrence of
    the separator ends an entry, and the result always has an entry. *)
Fixpoint split (sep : char) (s : str) : list str :=
  match s with
  | [] => [[]]
  | c :: s' =>
      if (c =? sep)%N then [] :: split sep s'
      else match split sep s' with
           | [] => [[c]]
           | h :: t => (c :: h) :: t
           end
  end.

Fixpoint starts_with (pre s : str) : bool :=
  match pre, s with
  | [], _ => true
  | _ :: _, [] => false
  | a :: pre', b :: s' => (a =? b)%N && starts_with pre' s'
  end.

(** [s.replace(old, new)] for a non-empty [old]: the occurrences of [old]
    are found from the left and do not overlap.  [skip] counts the
    characters of the occurrence just replaced that are still to be passed
    over. *)
Fixpoint replace_from (old new : str) (skip : nat) (s : str) : str :=
  match s with
  | [] => []
  | c :: s' =>
      match skip with
      | S k => replace_from old new k s'
      | O =>
          if starts_with old s
          then new ++ replace_from old new (List.length old - 1) s'
          else c :: replace_from old new 0 s'
      end
  end.

(** With an empty [old] Python puts [new] before every character and at
    the end. *)
Definition replace (old new s : str) : str :=
  match old with
  | [] => new ++ flat_map (fun c => c :: new) s
  | _ :: _ => replace_from old new 0 s
  end.

(** [len(s)] and [s[:n]] for [n >= 0]. *)
Definition len (s : str) : Z := Z.of_nat (List.length s).
Definition slice_to (n : Z) (s : str) : str := firstn (Z.to_nat n) s.

(** [f"{n}"] for a non-negative integer. *)
Definition format_int (n : Z) : str :=
  lit (NilZero.string_of_uint (N.to_uint (Z.to_N n))).

(** Truth value of a [str] and of an optional [str] ([None] is false). *)
Definition truthy (s : str) : bool :=
  match s with [] => false | _ :: _ => true end.

Definition truthy_opt (o : option str) : bool :=
  match o with None => false | Some s => truthy s end.

End Py.

Import Py.

(** ** Format strings

    [template.format(name=value)] and an f-string whose only expression is
    the variable [name]: a doubled brace stands for one brace and the field
    stands for [value], which is not scanned again.  (A single brace that
    opens no field does not occur in the templates of this program.) *)

Definition RBRACE : char := 125%N.

Fixpoint format_from (name value : str) (skip : nat) (t : str) : str :=
  match t with
  | [] => []
  | c :: t' =>
      match skip with
      | S k => format_from name value k t'
      | O =>
          if starts_with [LBRACE; LBRACE] t
          then LBRACE :: format_from name value 1 t'
          else if starts_with [RBRACE; RBRACE] t
          then RBRACE :: format_from name value 1 t'
          else if starts_with (LBRACE :: name ++ [RBRACE]) t
          then value ++ format_from name value (S (List.length name)) t'
          else c :: format_from name value 0 t'
      end
  end.

Definition format (template name value : str) : str :=
  format_from name value 0 template.

(** The [prompt] template of [create_mindmap_markdown], line by line. *)
Definition outline_prompt : str :=
  join [NL]
    [lit "";
     lit "        Create a hierarchical markdown mindmap from the following text. ";
     lit "        Use proper markdown heading syntax (# for main topics, ## for subtopics, ### for details).";
     lit "        Focus on the main concepts and their relationships.";
     lit "        Include relevant details and connections between ideas.";
     lit "        Keep the structure clean and organized.";
     lit "        ";
     lit "        Format the output exactly like this example:";
     lit "        # Main Topic";
     lit "        ## Subtopic 1";
     lit "        ### Detail 1";
     lit "        - Key point 1";
     lit "        - Key point 2";
     lit "        ### Detail 2";
     lit "        ## Subtopic 2";
     lit "        ### Detail 3";
     lit "        ### Detail 4";
     lit "        ";
     lit "        Text to analyze: {text}";
     lit "        ";
     lit "        Respond only with the markdown mindmap, no additional text.";
     lit "        "].

(** The [prompt] template of [generate_questions_from_text]. *)
Definition questions_prompt : str :=
  join [NL]
    [lit "";
     lit "        Based on the following text, generate a list of questions that test comprehension and understanding of the content. ";
     lit "        Provide the questions in a numbered list format.";
     lit "";
     lit "        Text:";
     lit "        {text}";
     lit "";
     lit "        Respond only with the list of questions.";
     lit "        "].

(** The f-string of [create_markmap_html] as it is written, braces doubled. *)
Definition markmap_template : str :=
  join [NL]
    [lit "";
     lit "    <!DOCTYPE html>";
     lit "    <html>";
     lit "    <head>";
     lit "        <meta charset=" ++ [DQ] ++ lit "UTF-8" ++ [DQ] ++ lit ">";
     lit "        <style>";
     lit "            #mindmap {{";
     lit "                width: 100%;";
     lit "                height: 600px;";
     lit "                margin: 0;";
     lit "                padding: 0;";
     lit "            }}";
     lit "        </style>";
     lit "        <script src=" ++ [DQ] ++ lit "https://cdn.jsdelivr.net/npm/d3@6" ++ [DQ] ++ lit "></script>";
     lit "        <script src=" ++ [DQ] ++ lit "https://cdn.jsdelivr.net/npm/markmap-view" ++ [DQ] ++ lit "></script>";
     lit "        <script src=" ++ [DQ] ++ lit "https://cdn.jsdelivr.net/npm/markmap-lib@0.14.3/dist/browser/index.min.js" ++ [DQ] ++ lit "></script>";
     lit "    </head>";
     lit "    <body>";
     lit "        <svg id=" ++ [DQ] ++ lit "mindmap" ++ [DQ] ++ lit "></svg>";
     lit "        <script>";
     lit "            window.onload = async () => {{";
     lit "                try {{";
     lit "                    const markdown = `{markdown_content}`;";
     lit "                    const transformer = new markmap.Transformer();";
     lit "                    const {{root}} = transformer.transform(markdown);";
     lit "                    const mm = new markmap.Markmap(document.querySelector('#mindmap'), {{";
     lit "                        maxWidth: 300,";
     lit "                        color: (node) => {{";
     lit "                            const level = node.depth;";
     lit "                            return ['#2196f3', '#4caf50', '#ff9800', '#f44336'][level % 4];";
     lit "                        }},";
     lit "                        paddingX: 16,";
     lit "                        autoFit: true,";
     lit "                        initialExpandLevel: 2,";
     lit "                        duration: 500,";
     lit "                    }});";
     lit "                    mm.setData(root);";
     lit "                    mm.fit();";
     lit "                }} catch (error) {{";
     lit "                    console.error('Error rendering mindmap:', error);";
     lit "                    document.body.innerHTML = '<p style=" ++ [DQ] ++ lit "color: red;" ++ [DQ] ++ lit ">Error rendering mindmap. Please check the console for details.</p>';";
     lit "                }}";
     lit "            }};";
     lit "        </script>";
     lit "    </body>";
     lit "    </html>";
     lit "    "].

(** ** Exceptions, the collaborators and the state *)

(** The exceptions the program can meet: the one Python raises when a
    local variable is read before it is bound, and any other [Exception],
    kept with its [str(e)]. *)
Inductive exn : Type :=
| UnboundLocalError (name : str)
| Exception (msg : str).

Definition str_of_exn (e : exn) : str :=
  match e with
  | UnboundLocalError name =>
      lit "cannot access local variable '" ++ name
        ++ lit "' where it is not associated with a value"
  | Exception msg => msg
  end.

Inductive outcome (A : Type) : Type :=
| Return (a : A)
| Raise (e : exn).
Arguments Return {A} a.
Arguments Raise {A} e.

Definition path := nat.

(** Every call the program makes to streamlit and to the other
    collaborators leaves one event, in the order of the calls. *)
Inductive event : Type :=
| StSetPageConfig (layout : str)
| StTitle (body : str)
| StMarkdown (body : str)
| StSubheader (body : str)
| StError (msg : str)
| StWarning (msg : str)
| StInfo (msg : str)
| StSpinner (text : str)
| StFileUploader (label type : str)
| StTabs (labels : list str)
| StDownloadButton (label data file_name mime key : str)
| StTextArea (label value : str) (height : Z)
| StButton (label : str)
| ComponentsHtml (html : str) (height : Z) (scrolling : bool)
| GenaiConfigure (api_key : str)
| GenerateContent (model prompt : str)
| PdfReaderOpen (p : path)
| ConvertFromPath (p : path)
| ImageToString.

(** The state threaded through the program: the files on disk, the events
    so far, and the local variable [temp_file_path] of the running
    [extract_text_from_pdf] ([None] while it is unbound). *)
Record state : Type := mkState {
  files : list path;
  trace : list event;
  temp_file_path : option path
}.

(** What the collaborators answer for one uploaded file. *)
Record page : Type := mkPage {
  extract_text : outcome (option str)          (* page.extract_text() *)
}.

Record image : Type := mkImage {
  image_to_string : outcome str                (* pytesseract.image_to_string(image) *)
}.

Record UploadedFile : Type := mkUpload {
  tmp_created : outcome unit;                  (* tempfile.NamedTemporaryFile(...) *)
  bytes_read : outcome unit;                   (* pdf_file.read() *)
  bytes_written : outcome unit;                (* temp_file.write(...) *)
  pages : outcome (list page);                 (* PdfReader(path).pages *)
  images : outcome (list image)                (* convert_from_path(path) *)
}.

(** The Gemini client: [genai.configure(api_key=...)] and
    [GenerativeModel(name).generate_content(prompt)] followed by
    [response.text] ([None] when the reply carries no text).  Building
    the [GenerativeModel] object from the constant model name only records
    the name; it is taken to succeed, and what can fail is the call. *)
Record Genai : Type := mkGenai {
  configure : str -> outcome unit;
  generate_content : str -> str -> outcome (option str)
}.

(** ** The monad *)

Definition M (A : Type) : Type := state -> outcome A * state.

Definition ret {A : Type} (a : A) : M A := fun s => (Return a, s).

Definition raise {A : Type} (e : exn) : M A := fun s => (Raise e, s).

Definition bind {A B : Type} (m : M A) (k : A -> M B) : M B :=
  fun s =>
    match m s with
    | (Return a, s') => k a s'
    | (Raise e, s') => (Raise e, s')
    end.

Declare Scope py_scope.
Delimit Scope py_scope with py.
Notation "x <- m ;; k" := (bind m (fun x => k))
  (at level 61, m at next level, right associativity) : py_scope.
Notation "m ;; k" := (bind m (fun _ => k))
  (at level 61, right associativity) : py_scope.
Local Open Scope py_scope.

(** [try: body except Exception as e: handler e]. *)
Definition try_except {A : Type} (body : M A) (handler : exn -> M A) : M A :=
  fun s =>
    match body s with
    | (Return a, s') => (Return a, s')
    | (Raise e, s') => handler e s'
    end.

(** [try: body finally: final]: [final] runs on every exit of [body]; an
    exception of [final] replaces the outcome of [body]. *)
Definition try_finally {A : Type} (body : M A) (final : M unit) : M A :=
  fun s =>
    let (r, s') := body s in
    match final s' with
    | (Return _, s'') => (r, s'')
    | (Raise e, s'') => (Raise e, s'')
    end.

(** The answer of a collaborator enters the computation. *)
Definition lift {A : Type} (o : outcome A) : M A := fun s => (o, s).

Definition emit (e : event) : M unit :=
  fun s => (Return tt, mkState (files s) (trace s ++ [e]) (temp_file_path s)).

Fixpoint for_each {A : Type} (l : list A) (body : A -> M unit) : M unit :=
  match l with
  | [] => ret tt
  | x :: l' => body x ;; for_each l' body
  end.

(** The local variable [temp_file_path]: a new frame has it unbound, an
    assignment binds it, and reading it unbound raises. *)
Definition enter_frame : M unit :=
  fun s => (Return tt, mkState (files s) (trace s) None).

Definition assign_temp_file_path (p : path) : M unit :=
  fun s => (Return tt, mkState (files s) (trace s) (Some p)).

Definition read_temp_file_path : M path :=
  fun s =>
    match temp_file_path s with
    | Some p => (Return p, s)
    | None => (Raise (UnboundLocalError (lit "temp_file_path")), s)
    end.

(** ** The collaborators as computations *)

Module st.
Definition set_page_config (layout : str) := emit (StSetPageConfig layout).
Definition title (body : str) := emit (StTitle body).
Definition markdown (body : str) := emit (StMarkdown body).
Definition subheader (body : str) := emit (StSubheader body).
Definition error (msg : str) := emit (StError msg).
Definition warning (msg : str) := emit (StWarning msg).
Definition info (msg : str) := emit (StInfo msg).
Definition spinner (text : str) := emit (StSpinner text).
Definition tabs (labels : list str) := emit (StTabs labels).
Definition download_button (label data file_name mime key : str) :=
  emit (StDownloadButton label data file_name mime key).
Definition text_area (label value : str) (height : Z) :=
  emit (StTextArea label value height).
(** The widgets that return something return what the session holds. *)
Definition file_uploader {A : Type} (label type : str) (answer : A) : M A :=
  emit (StFileUploader label type) ;; ret answer.
Definition button (label : str) (answer : bool) : M bool :=
  emit (StButton label) ;; ret answer.
End st.

Module components.
Definition html (content : str) (height : Z) (scrolling : bool) :=
  emit (ComponentsHtml content height scrolling).
End components.

Module os.
Definition path_exists (p : path) : M bool :=
  fun s => (Return (existsb (Nat.eqb p) (files s)), s).
Definition remove (p : path) : M unit :=
  fun s =>
    if existsb (Nat.eqb p) (files s)
    then (Return tt,
          mkState (filter (fun q => negb (Nat.eqb p q)) (files s))
                  (trace s) (temp_file_path s))
    else (Raise (Exception (lit "No such file or directory")), s).
End os.

Module tempfile.
(** A name no file on disk has. *)
Definition fresh (fs : list path) : path := S (list_max fs).
(** [with NamedTemporaryFile(delete=False, suffix=".pdf") as temp_file]:
    the file is created under a fresh name and stays on disk when the
    [with] block is left; the result is [temp_file.name]. *)
Definition NamedTemporaryFile (pdf_file : UploadedFile) : M path :=
  lift (tmp_created pdf_file) ;;
  fun s =>
    let p := fresh (files s) in
    (Return p, mkState (p :: files s) (trace s) (temp_file_path s)).
End tempfile.

Module PyPDF2.
Definition PdfReader (pdf_file : UploadedFile) (p : path) : M (list page) :=
  emit (PdfReaderOpen p) ;; lift (pages pdf_file).
End PyPDF2.

Module pdf2image.
Definition convert_from_path (pdf_file : UploadedFile) (p : path)
  : M (list image) :=
  emit (ConvertFromPath p) ;; lift (images pdf_file).
End pdf2image.

Module pytesseract.
Definition image_to_string (i : image) : M str :=
  emit ImageToString ;; lift (image_to_string i).
End pytesseract.

Module genai.
Definition configure (g : Genai) (api_key : str) : M unit :=
  emit (GenaiConfigure api_key) ;; lift (configure g api_key).
Definition generate_content (g : Genai) (model prompt : str)
  : M (option str) :=
  emit (GenerateContent model prompt) ;; lift (generate_content g model prompt).
End genai.

(** ** The program *)

Definition missing_key_message : str :=
  lit "API Key is missing. Please set the GENAI_API_KEY environment variable.".

(** [configure_genai()], with the module-level [API_KEY] as an argument:
    [None] when the variable is not set. *)
Definition configure_genai (g : Genai) (API_KEY : option str) : M bool :=
  if negb (truthy_opt API_KEY)
  then st.error missing_key_message ;; ret false
  else
    try_except
      (genai.configure g (match API_KEY with Some key => key | None => [] end) ;;
       ret true)
      (fun e =>
         st.error (lit "Error configuring Google API: " ++ str_of_exn e) ;;
         ret false).

(** The generator [page.extract_text() for page in pdf_reader.pages if
    page.extract_text()]: the pages in order, those with no text or an
    empty text left out; the first exception stops it.  The page answers
    the second call as it answered the first. *)
Fixpoint page_texts (ps : list page) : outcome (list str) :=
  match ps with
  | [] => Return []
  | p :: ps' =>
      match extract_text p with
      | Raise e => Raise e
      | Return None => page_texts ps'
      | Return (Some t) =>
          if truthy t
          then match page_texts ps' with
               | Return ts => Return (t :: ts)
               | Raise e => Raise e
               end
          else page_texts ps'
      end
  end.

(** The loop [for i, image in enumerate(images): ocr_text += ... + "\n"]. *)
Fixpoint ocr_loop (imgs : list image) (ocr_text : str) : M str :=
  match imgs with
  | [] => ret ocr_text
  | i :: imgs' =>
      t <- pytesseract.image_to_string i ;;
      ocr_loop imgs' (ocr_text ++ (t ++ [NL]))
  end.

(** The three blocks of [extract_text_from_pdf]: what stands under [try],
    under [except Exception as e] and under [finally]. *)
Definition extract_text_try (pdf_file : UploadedFile) : M (option str) :=
  temp_file_name <- tempfile.NamedTemporaryFile pdf_file ;;
  lift (bytes_read pdf_file) ;;
  lift (bytes_written pdf_file) ;;
  assign_temp_file_path temp_file_name ;;
  p <- read_temp_file_path ;;
  pdf_reader_pages <- PyPDF2.PdfReader pdf_file p ;;
  texts <- lift (page_texts pdf_reader_pages) ;;
  let text := join [NL] texts in
  if negb (truthy (strip text))
  then
    st.warning (lit "No text could be extracted from the PDF. Attempting OCR...") ;;
    p <- read_temp_file_path ;;
    imgs <- pdf2image.convert_from_path pdf_file p ;;
    ocr_text <- ocr_loop imgs [] ;;
    if negb (truthy (strip ocr_text))
    then
      st.error (lit "OCR failed to extract text. Ensure the PDF contains readable text or images.") ;;
      ret None
    else ret (Some (strip ocr_text))
  else ret (Some (strip text)).

Definition extract_text_except (e : exn) : M (option str) :=
  st.error (lit "Error reading PDF: " ++ str_of_exn e) ;;
  ret None.

Definition extract_text_finally : M unit :=
  p <- read_temp_file_path ;;
  b <- os.path_exists p ;;
  if b then os.remove p else ret tt.

Definition extract_text_from_pdf (pdf_file : UploadedFile) : M (option str) :=
  enter_frame ;;
  try_finally
    (try_except (extract_text_try pdf_file) extract_text_except)
    extract_text_finally.

Definition max_chars : Z := 30000.
Definition model_name : str := lit "gemini-2.0-flash".

(** [f"Text was truncated to {max_chars} characters due to length
    limitations."] *)
Definition truncation_notice : str :=
  lit "Text was truncated to " ++ format_int max_chars
    ++ lit " characters due to length limitations.".

(** [not response.text or not response.text.strip()]. *)
Definition reply_is_empty (response_text : option str) : bool :=
  match response_text with
  | None => true
  | Some t => negb (truthy t) || negb (truthy (strip t))
  end.

Definition response_text_strip (response_text : option str) : str :=
  match response_text with
  | None => []
  | Some t => strip t
  end.

Definition create_mindmap_markdown (g : Genai) (text : str) : M (option str) :=
  try_except
    (text <- (if (max_chars <? len text)%Z
              then
                let text := slice_to max_chars text ++ lit "..." in
                st.warning truncation_notice ;;
                ret text
              else ret text) ;;
     response_text <-
       genai.generate_content g model_name (format outline_prompt (lit "text") text) ;;
     if reply_is_empty response_text
     then st.error (lit "Received empty response from Gemini AI") ;; ret None
     else ret (Some (response_text_strip response_text)))
    (fun e =>
       st.error (lit "Error generating mindmap: " ++ str_of_exn e) ;;
       ret None).

Definition create_markmap_html (markdown_content : str) : str :=
  let markdown_content :=
    replace [DOLLAR; LBRACE] [BACKSLASH; DOLLAR; LBRACE]
      (replace [BACKTICK] [BACKSLASH; BACKTICK] markdown_content) in
  format markmap_template (lit "markdown_content") markdown_content.

Definition generate_questions_from_text (g : Genai) (text : str)
  : M (option (list str)) :=
  try_except
    (response_text <-
       genai.generate_content g model_name (format questions_prompt (lit "text") text) ;;
     if reply_is_empty response_text
     then st.error (lit "Received empty response from Gemini AI") ;; ret None
     else ret (Some (split NL (response_text_strip response_text))))
    (fun e =>
       st.error (lit "Error generating questions: " ++ str_of_exn e) ;;
       ret None).

(** One run of the script: the environment variable, the Gemini client,
    what the file uploader holds and whether the button was pressed. *)
Record session : Type := mkSession {
  API_KEY : option str;
  client : Genai;
  uploaded_file : option UploadedFile;
  generate_questions_clicked : bool
}.

Definition nonempty {A : Type} (o : option (list A)) : bool :=
  match o with
  | Some (_ :: _) => true
  | _ => false
  end.

Definition main (ss : session) : M unit :=
  st.set_page_config (lit "wide") ;;
  st.title ([128196%N] ++ lit " PDF to Mindmap Converter") ;;
  st.markdown (lit "Convert your PDF content into an interactive mindmap.") ;;
  configured <- configure_genai (client ss) (API_KEY ss) ;;
  if negb configured then ret tt
  else
    uploaded <- st.file_uploader ([128229%N] ++ lit " Choose a PDF file") (lit "pdf")
                  (uploaded_file ss) ;;
    match uploaded with
    | None => ret tt
    | Some pdf_file =>
        st.spinner ([128260%N] ++ lit " Processing PDF and generating mindmap...") ;;
        text <- extract_text_from_pdf pdf_file ;;
        match text with
        | None => ret tt
        | Some text =>
            if negb (truthy text) then ret tt
            else
              st.info ([9989%N] ++ lit " Successfully extracted " ++ format_int (len text)
                         ++ lit " characters from PDF") ;;
              markdown_content <- create_mindmap_markdown (client ss) text ;;
              if negb (truthy_opt markdown_content) then ret tt
              else
                let markdown_content :=
                  match markdown_content with Some m => m | None => [] end in
                st.tabs [[128202%N] ++ lit " Mindmap";
                         [128221%N] ++ lit " Markdown";
                         [10067%N] ++ lit " Questions"] ;;
                st.subheader ([127795%N] ++ lit " Interactive Mindmap") ;;
                let html_content := create_markmap_html markdown_content in
                st.download_button ([11015%N; 65039%N] ++ lit " Download Mindmap")
                  html_content (lit "interactive_mindmap.html") (lit "text/html")
                  (lit "download_html") ;;
                components.html html_content 700 true ;;
                st.subheader ([128221%N] ++ lit " Generated Markdown") ;;
                st.download_button ([11015%N; 65039%N] ++ lit " Download Markdown")
                  markdown_content (lit "mindmap.md") (lit "text/markdown")
                  (lit "download_markdown") ;;
                st.text_area (lit "Markdown Content") markdown_content 400 ;;
                st.subheader ([10067%N] ++ lit " Questions and Topic Importance") ;;
                clicked <- st.button (lit "Generate Questions")
                             (generate_questions_clicked ss) ;;
                if clicked
                then
                  st.spinner ([128260%N]
                                ++ lit " Generating questions and analyzing topic importance...") ;;
                  questions <- generate_questions_from_text (client ss) text ;;
                  if nonempty questions
                  then
                    st.markdown (lit "### Generated Questions:") ;;
                    for_each (match questions with Some qs => qs | None => [] end)
                      (fun question => st.markdown (lit "- " ++ question))
                  else st.error (lit "Failed to generate questions. Please try again.")
                else ret tt
        end
    end.

(** The state in which a run starts: the files already on disk, no event. *)
Definition initial (fs : list path) : state := mkState fs [] None.

(** ** Reading the trace *)

Definition is_ocr (e : event) : bool :=
  match e with ConvertFromPath _ | ImageToString => true | _ => false end.

Definition is_extraction (e : event) : bool :=
  match e with
  | PdfReaderOpen _ | ConvertFromPath _ | ImageToString => true
  | _ => false
  end.

(** The prompts handed to the model, in order. *)
Fixpoint submitted (t : list event) : list str :=
  match t with
  | [] => []
  | GenerateContent _ prompt :: t' => prompt :: submitted t'
  | _ :: t' => submitted t'
  end.

(** ** The template literal of the rendered page

    The markdown lands between the two backticks of
    [const markdown = `...`;].  The scanner below reads the inside of a
    JavaScript template literal as the language's lexical grammar does: a
    backslash takes the next character with it, a backtick that is not so
    taken closes the literal, and a dollar sign followed by an opening
    brace, not so taken, opens a substitution. *)
Inductive scan : Type :=
| Inside                       (* the text ended inside the literal *)
| Dangling                     (* the text ended on a lone backslash *)
| Closed (rest : str)          (* a backtick closed the literal before [rest] *)
| Substitution (rest : str).   (* a substitution opened before [rest] *)

Fixpoint scan_template (s : str) : scan :=
  match s with
  | [] => Inside
  | c :: s' =>
      if (c =? BACKSLASH)%N then
        match s' with
        | [] => Dangling
        | _ :: s'' => scan_template s''
        end
      else if (c =? BACKTICK)%N then Closed s'
      else if (c =? DOLLAR)%N then
        match s' with
        | c' :: s'' =>
            if (c' =? LBRACE)%N then Substitution s'' else scan_template s'
        | [] => Inside
        end
      else scan_template s'
  end.

(** ** Notions the statements use *)

(** The text [create_mindmap_markdown] puts into its prompt. *)
Definition capped (text : str) : str :=
  if (max_chars <? len text)%Z
  then slice_to max_chars text ++ lit "..."
  else text.

Definition outline_request (text : str) : str :=
  format outline_prompt (lit "text") (capped text).

Definition questions_request (text : str) : str :=
  format questions_prompt (lit "text") text.

(** The escaping in one pass, as the specification words it: a backtick
    and a dollar sign followed by an opening brace each receive one
    backslash, every other character is copied. *)
Fixpoint escape_once (s : str) : str :=
  match s with
  | [] => []
  | c :: s' =>
      if (c =? BACKTICK)%N then BACKSLASH :: BACKTICK :: escape_once s'
      else if (c =? DOLLAR)%N then
        match s' with
        | c' :: s'' =>
            if (c' =? LBRACE)%N
            then BACKSLASH :: DOLLAR :: LBRACE :: escape_once s''
            else c :: escape_once s'
        | [] => [c]
        end
      else c :: escape_once s'
  end.

(** The page before and after the markdown. *)
Definition html_before : str :=
  format (firstn 684 markmap_template) (lit "markdown_content") [].

Definition html_after : str :=
  format (skipn 702 markmap_template) (lit "markdown_content") [].

(** The lines of a text as the specification counts them: the text cut at
    every newline, a final newline ending the last line rather than
    opening an empty one. *)
Definition lines (s : str) : list str :=
  match rev (split NL s) with
  | [] :: earlier => rev earlier
  | _ => split NL s
  end.

(** A reply the generators reject: none at all (an exception, or no
    text), or one that is empty once trimmed. *)
Definition blank_reply (reply : outcome (option str)) : Prop :=
  match reply with
  | Return (Some t) => strip t = []
  | _ => True
  end.

Definition has_visible (s : str) : bool :=
  existsb (fun c => negb (isspace c)) s.

Definition starts_visible (s : str) : bool :=
  match s with
  | [] => false
  | c :: _ => negb (isspace c)
  end.

Definition ends_visible (s : str) : bool := starts_visible (rev s).

(** The embedded texts of the pages that have one, in page order, when
    every page answers. *)
Fixpoint non_empty_texts (ts : list (option str)) : list str :=
  match ts with
  | [] => []
  | Some (c :: t) :: ts' => (c :: t) :: non_empty_texts ts'
  | _ :: ts' => non_empty_texts ts'
  end.

(** An upload that is stored without trouble and whose pages and page
    images answer with the given texts. *)
Definition document (texts : list (option str)) (scans : list str) : UploadedFile :=
  mkUpload (Return tt) (Return tt) (Return tt)
    (Return (map (fun t => mkPage (Return t)) texts))
    (Return (map (fun t => mkImage (Return t)) scans)).

(** What the OCR loop accumulates over the page images. *)
Definition ocr_output (scans : list str) : str :=
  List.concat (map (fun t => t ++ [NL]) scans).

(** An upload whose bytes reach the temporary file. *)
Definition stored (pdf_file : UploadedFile) : Prop :=
  tmp_created pdf_file = Return tt /\
  bytes_read pdf_file = Return tt /\
  bytes_written pdf_file = Return tt.

(** The events one call of [create_mindmap_markdown] adds before the reply
    is looked at. *)
Definition outline_call (text : str) : list event :=
  (if (max_chars <? len text)%Z then [StWarning truncation_notice] else [])
    ++ [GenerateContent model_name (outline_request text)].

(** ** Sample inputs *)

(** A client that accepts every key and gives the same reply to every
    prompt. *)
Definition answering (reply : outcome (option str)) : Genai :=
  mkGenai (fun _ => Return tt) (fun _ _ => reply).

(** A markdown in which a backslash stands before a backtick. *)
Definition injected_markdown : str :=
  [BACKSLASH; BACKTICK] ++ lit ";alert(1);//".

(** An upload for which [temp_file.write] fails. *)
Definition unwritable_upload : UploadedFile :=
  mkUpload (Return tt) (Return tt)
    (Raise (Exception (lit "No space left on device")))
    (Return []) (Return []).

Definition hello_pdf : UploadedFile := document [Some (lit "hello")] [].

(** A scanned page whose text layer holds one space. *)
Definition blank_page_pdf : UploadedFile :=
  document [Some (lit " ")] [lit "scan"].

Definition padded_page_pdf : UploadedFile := document [Some (lit " a")] [].

Definition keyless_session : session :=
  mkSession None (answering (Return (Some (lit "# Topic")))) (Some hello_pdf) false.

Definition two_questions_reply : str :=
  lit "1. Why?" ++ [NL] ++ lit "2. How?" ++ [NL].

Definition led_by_blank_line_reply : str := NL :: two_questions_reply.

Definition long_text : str := repeat 97%N (Z.to_nat 30001).

(** ** The environment and the parts of a run *)

(** The process environment and [os.getenv(name)]: the value of the
    variable, [None] when it is not set. *)
Definition environ : Type := str -> option str.

Definition getenv (env : environ) (name : str) : option str := env name.

(** [API_KEY = os.getenv("GOOGLE_API_KEY")], evaluated when the module is
    loaded, and a run of the script under an environment. *)
Definition load_API_KEY (env : environ) : option str :=
  getenv env (lit "GOOGLE_API_KEY").

Definition run_script (env : environ) (g : Genai)
    (uploaded : option UploadedFile) (clicked : bool) : M unit :=
  main (mkSession (load_API_KEY env) g uploaded clicked).

Fixpoint str_eqb (a b : str) : bool :=
  match a, b with
  | [], [] => true
  | x :: a', y :: b' => (x =? y)%N && str_eqb a' b'
  | _, _ => false
  end.

(** The first exception met while the upload is put into the temporary
    file, if any, and whether the file was created before it. *)
Definition storing_error (pdf_file : UploadedFile) : option exn :=
  match tmp_created pdf_file with
  | Raise e => Some e
  | Return _ =>
      match bytes_read pdf_file with
      | Raise e => Some e
      | Return _ =>
          match bytes_written pdf_file with
          | Raise e => Some e
          | Return _ => None
          end
      end
  end.

Definition temp_file_created (pdf_file : UploadedFile) : bool :=
  match tmp_created pdf_file with
  | Return _ => true
  | Raise _ => false
  end.

(** What [main] does under [if markdown_content:], and in it under
    [with tab3:]. *)
Definition questions_tab (ss : session) (text : str) : M unit :=
  st.subheader ([10067%N] ++ lit " Questions and Topic Importance") ;;
  clicked <- st.button (lit "Generate Questions") (generate_questions_clicked ss) ;;
  if clicked
  then
    st.spinner ([128260%N]
                  ++ lit " Generating questions and analyzing topic importance...") ;;
    questions <- generate_questions_from_text (client ss) text ;;
    if nonempty questions
    then
      st.markdown (lit "### Generated Questions:") ;;
      for_each (match questions with Some qs => qs | None => [] end)
        (fun question => st.markdown (lit "- " ++ question))
    else st.error (lit "Failed to generate questions. Please try again.")
  else ret tt.

Definition mindmap_tabs (ss : session) (text markdown_content : str) : M unit :=
  st.tabs [[128202%N] ++ lit " Mindmap";
           [128221%N] ++ lit " Markdown";
           [10067%N] ++ lit " Questions"] ;;
  st.subheader ([127795%N] ++ lit " Interactive Mindmap") ;;
  let html_content := create_markmap_html markdown_content in
  st.download_button ([11015%N; 65039%N] ++ lit " Download Mindmap")
    html_content (lit "interactive_mindmap.html") (lit "text/html")
    (lit "download_html") ;;
  components.html html_content 700 true ;;
  st.subheader ([128221%N] ++ lit " Generated Markdown") ;;
  st.download_button ([11015%N; 65039%N] ++ lit " Download Markdown")
    markdown_content (lit "mindmap.md") (lit "text/markdown")
    (lit "download_markdown") ;;
  st.text_area (lit "Markdown Content") markdown_content 400 ;;
  questions_tab ss text.

(** The events of the page header, shown on every run. *)
Definition page_header : list event :=
  [StSetPageConfig (lit "wide");
   StTitle ([128196%N] ++ lit " PDF to Mindmap Converter");
   StMarkdown (lit "Convert your PDF content into an interactive mindmap.")].

Definition is_error (e : event) : bool :=
  match e with StError _ => true | _ => false end.

Definition is_tabs (e : event) : bool :=
  match e with StTabs _ => true | _ => false end.

(** The events text extraction can leave. *)
Definition extraction_event (e : event) : bool :=
  match e with
  | PdfReaderOpen _ | ConvertFromPath _ | ImageToString
  | StWarning _ | StError _ => true
  | _ => false
  end.

(** The widgets through which the page offers the mind map and the
    outline, and the five of them that [main] shows for an outline. *)
Definition is_widget (e : event) : bool :=
  match e with
  | StTabs _ | StDownloadButton _ _ _ _ _ | ComponentsHtml _ _ _
  | StTextArea _ _ _ => true
  | _ => false
  end.

Definition mindmap_widgets (markdown_content : str) : list event :=
  [StTabs [[128202%N] ++ lit " Mindmap";
           [128221%N] ++ lit " Markdown";
           [10067%N] ++ lit " Questions"];
   StDownloadButton ([11015%N; 65039%N] ++ lit " Download Mindmap")
     (create_markmap_html markdown_content) (lit "interactive_mindmap.html")
     (lit "text/html") (lit "download_html");
   ComponentsHtml (create_markmap_html markdown_content) 700 true;
   StDownloadButton ([11015%N; 65039%N] ++ lit " Download Markdown")
     markdown_content (lit "mindmap.md") (lit "text/markdown")
     (lit "download_markdown");
   StTextArea (lit "Markdown Content") markdown_content 400].

(** * Properties *)

(** ** Trimming *)

Section Dropwhile.
Context {A : Type} (p : A -> bool).

Lemma dropwhile_stops (l : list A) :
  match dropwhile p l with
  | [] => True
  | x :: _ => p x = false
  end.
Proof.
  induction l as [|x l IH]; simpl; [exact I|].
  destruct (p x) eqn:E; [exact IH | exact E].
Qed.

Lemma dropwhile_keeps (x : A) (l : list A) :
  p x = false -> dropwhile p (x :: l) = x :: l.
Proof. intros E. simpl. now rewrite E. Qed.

Lemma dropwhile_app_stop (a : list A) (x : A) (b : list A) :
  p x = false -> dropwhile p (a ++ x :: b) = dropwhile p a ++ x :: b.
Proof.
  intros E. induction a as [|y a IH]; simpl.
  - now rewrite E.
  - destruct (p y); [exact IH | reflexivity].
Qed.

End Dropwhile.

Lemma rstrip_cons (x : char) (l : str) :
  isspace x = false -> rstrip (x :: l) = x :: rstrip l.
Proof.
  intros E. unfold rstrip. simpl rev.
  rewrite dropwhile_app_stop by exact E.
  rewrite rev_app_distr. reflexivity.
Qed.

Lemma rstrip_ends_visible (s : str) :
  rstrip s = [] \/ ends_visible (rstrip s) = true.
Proof.
  unfold ends_visible, rstrip. rewrite rev_involutive.
  pose proof (dropwhile_stops isspace (rev s)) as H.
  destruct (dropwhile isspace (rev s)) as [|x r]; [now left|right].
  simpl. now rewrite H.
Qed.

(** A trimmed text is empty, or it starts and ends with a visible
    character. *)
Lemma strip_shape (s : str) :
  strip s = [] \/
  (starts_visible (strip s) = true /\ ends_visible (strip s) = true).
Proof.
  unfold strip, lstrip.
  pose proof (dropwhile_stops isspace s) as H.
  destruct (dropwhile isspace s) as [|x l] eqn:E.
  - left. reflexivity.
  - right. split.
    + rewrite rstrip_cons by exact H. simpl. now rewrite H.
    + destruct (rstrip_ends_visible (x :: l)) as [R|R]; [|exact R].
      rewrite rstrip_cons in R by exact H. discriminate.
Qed.

Lemma strip_fixed (s : str) :
  starts_visible s = true -> ends_visible s = true -> strip s = s.
Proof.
  intros Hs He. unfold strip, lstrip.
  destruct s as [|x l]; [discriminate|].
  simpl in Hs. apply negb_true_iff in Hs.
  rewrite dropwhile_keeps by exact Hs.
  unfold rstrip. unfold ends_visible in He.
  destruct (rev (x :: l)) as [|y r] eqn:E; [discriminate|].
  simpl in He. apply negb_true_iff in He.
  rewrite dropwhile_keeps by exact He.
  rewrite <- E. apply rev_involutive.
Qed.

Lemma strip_idempotent (s : str) : strip (strip s) = strip s.
Proof.
  destruct (strip_shape s) as [E|[Hs He]].
  - rewrite E. reflexivity.
  - now apply strip_fixed.
Qed.

Lemma truthy_true (s : str) : truthy s = true <-> s <> [].
Proof. destruct s; simpl; split; congruence. Qed.

Lemma truthy_false (s : str) : truthy s = false <-> s = [].
Proof. destruct s; simpl; split; congruence. Qed.

(** ** Splitting and joining *)

Lemma isspace_NL : isspace NL = true.
Proof. reflexivity. Qed.

Lemma visible_not_NL (c : char) : isspace c = false -> (c =? NL)%N = false.
Proof.
  intros H. destruct (N.eqb_spec c NL) as [->|]; [|reflexivity].
  rewrite isspace_NL in H. discriminate.
Qed.

Lemma split_not_nil (sep : char) (s : str) : split sep s <> [].
Proof.
  destruct s as [|c s]; simpl; [discriminate|].
  destruct (c =? sep)%N; [discriminate|].
  destruct (split sep s); discriminate.
Qed.

Lemma split_entries_without_sep (sep : char) (s : str) :
  Forall (fun entry => ~ In sep entry) (split sep s).
Proof.
  induction s as [|c s IH]; simpl.
  - constructor; [intros []|constructor].
  - destruct (N.eqb_spec c sep) as [->|Hc].
    + constructor; [intros []|exact IH].
    + destruct (split sep s) as [|h t]; simpl.
      * constructor; [|constructor]. intros [E|[]]. congruence.
      * inversion IH as [|? ? Hh Ht]; subst.
        constructor; [|exact Ht]. intros [E|Hin]; [congruence|tauto].
Qed.

Lemma join_split (sep : char) (s : str) : join [sep] (split sep s) = s.
Proof.
  induction s as [|c s IH]; simpl; [reflexivity|].
  destruct (N.eqb_spec c sep) as [->|Hc].
  - pose proof (split_not_nil sep s) as Hn.
    destruct (split sep s) as [|h t]; [congruence|].
    simpl in *. now rewrite IH.
  - destruct (split sep s) as [|h t]; simpl in *.
    + now rewrite <- IH.
    + destruct t as [|h' t']; simpl in *; now rewrite <- IH.
Qed.

Lemma split_first (sep c : char) (s : str) :
  (c =? sep)%N = false ->
  exists h t, split sep (c :: s) = (c :: h) :: t.
Proof.
  intros Hc. simpl. rewrite Hc.
  destruct (split sep s) as [|h t]; eauto.
Qed.

Lemma split_last (sep y : char) (s : str) :
  (y =? sep)%N = false ->
  exists l e, split sep (s ++ [y]) = l ++ [e ++ [y]].
Proof.
  intros Hy. induction s as [|c s [l [e IH]]]; simpl.
  - rewrite Hy. exists [], []. reflexivity.
  - rewrite IH. destruct (c =? sep)%N.
    + exists ([] :: l), e. reflexivity.
    + destruct l as [|h l]; simpl.
      * exists [], (c :: e). reflexivity.
      * exists ((c :: h) :: l), e. reflexivity.
Qed.

Lemma has_visible_app_r (a b : str) :
  has_visible b = true -> has_visible (a ++ b) = true.
Proof.
  unfold has_visible. intros H. rewrite existsb_app, H. apply orb_true_r.
Qed.

(** The entries of a trimmed, non-empty text: the first and the last show
    something. *)
Lemma split_trimmed_ends (s : str) :
  starts_visible s = true -> ends_visible s = true ->
  has_visible (hd [] (split NL s)) = true /\
  has_visible (last (split NL s) []) = true.
Proof.
  intros Hs He. split.
  - destruct s as [|c s]; [discriminate|].
    simpl in Hs. apply negb_true_iff in Hs.
    destruct (split_first NL c s (visible_not_NL c Hs)) as [h [t E]].
    rewrite E. simpl. unfold has_visible. simpl. now rewrite Hs.
  - unfold ends_visible in He.
    rewrite <- (rev_involutive s).
    destruct (rev s) as [|y r]; [discriminate|].
    simpl in He. apply negb_true_iff in He. simpl rev.
    destruct (split_last NL y (rev r) (visible_not_NL y He)) as [l [e E]].
    rewrite E, last_last. apply has_visible_app_r.
    unfold has_visible. simpl. now rewrite He.
Qed.

(** ** Running the collaborators *)

Lemma ocr_loop_frame (imgs : list image) (acc : str) (s : state) :
  files (snd (ocr_loop imgs acc s)) = files s /\
  temp_file_path (snd (ocr_loop imgs acc s)) = temp_file_path s.
Proof.
  revert acc s. induction imgs as [|i imgs IH]; intros acc s; simpl.
  - split; reflexivity.
  - unfold bind, pytesseract.image_to_string, emit, lift. simpl.
    destruct (image_to_string i) as [t|e]; simpl.
    + destruct (IH (acc ++ t ++ [NL])
                  (mkState (files s) (trace s ++ [ImageToString]) (temp_file_path s)))
        as [Hf Ht].
      simpl in Hf, Ht. now rewrite Hf, Ht.
    + split; reflexivity.
Qed.

Lemma ocr_loop_answers (scans : list str) (acc : str) (s : state) :
  ocr_loop (map (fun t => mkImage (Return t)) scans) acc s =
  (Return (acc ++ ocr_output scans),
   mkState (files s) (trace s ++ repeat ImageToString (List.length scans))
           (temp_file_path s)).
Proof.
  revert acc s. induction scans as [|t scans IH]; intros acc s; simpl.
  - unfold ret, ocr_output. simpl. rewrite !app_nil_r. now destruct s.
  - unfold bind, pytesseract.image_to_string, emit, lift. simpl.
    rewrite IH. simpl. unfold ocr_output. simpl.
    rewrite <- !app_assoc. reflexivity.
Qed.

Lemma page_texts_answers (texts : list (option str)) :
  page_texts (map (fun t => mkPage (Return t)) texts) =
  Return (non_empty_texts texts).
Proof.
  induction texts as [|t texts IH]; simpl; [reflexivity|].
  destruct t as [[|c t]|]; simpl; rewrite IH; reflexivity.
Qed.

Lemma fresh_is_new (fs : list path) : ~ In (tempfile.fresh fs) fs.
Proof.
  unfold tempfile.fresh. intros Hin.
  assert (H : Forall (fun k => k <= list_max fs) fs)
    by (apply list_max_le; lia).
  rewrite Forall_forall in H. apply H in Hin. lia.
Qed.

Lemma remove_absent (p : path) (fs : list path) :
  ~ In p fs -> filter (fun q => negb (Nat.eqb p q)) fs = fs.
Proof.
  induction fs as [|q fs IH]; simpl; [reflexivity|].
  intros H. destruct (Nat.eqb_spec p q) as [->|Hpq]; simpl.
  - exfalso. apply H. now left.
  - f_equal. apply IH. tauto.
Qed.

Lemma remove_fresh (fs : list path) :
  filter (fun q => negb (Nat.eqb (tempfile.fresh fs) q)) (tempfile.fresh fs :: fs) = fs.
Proof.
  cbn [filter]. rewrite Nat.eqb_refl. cbn [negb].
  apply remove_absent, fresh_is_new.
Qed.

(** ** Text extraction *)

#[local] Arguments strip : simpl never.
#[local] Arguments join : simpl never.
#[local] Arguments lit : simpl never.
#[local] Arguments format : simpl never.
#[local] Arguments tempfile.fresh : simpl never.
#[local] Arguments str_of_exn : simpl never.

Ltac unfold_calls :=
  unfold tempfile.NamedTemporaryFile, PyPDF2.PdfReader,
    pdf2image.convert_from_path, genai.generate_content, genai.configure,
    assign_temp_file_path, read_temp_file_path, enter_frame,
    st.error, st.warning, st.info, emit, lift, bind, ret in *.

(** Once the upload is stored, the [try] block leaves the temporary file
    on disk and its name in [temp_file_path], however it ends. *)
Lemma extract_text_try_stored (pdf_file : UploadedFile) (s : state) :
  stored pdf_file ->
  files (snd (extract_text_try pdf_file s)) = tempfile.fresh (files s) :: files s /\
  temp_file_path (snd (extract_text_try pdf_file s)) = Some (tempfile.fresh (files s)).
Proof.
  intros (H1 & H2 & H3). unfold extract_text_try. unfold_calls.
  rewrite H1, H2, H3. simpl.
  destruct (pages pdf_file) as [ps|e]; simpl; [|now split].
  destruct (page_texts ps) as [ts|e]; simpl; [|now split].
  destruct (truthy (strip (join [NL] ts))); simpl; [now split|].
  destruct (images pdf_file) as [imgs|e]; simpl; [|now split].
  match goal with |- context [ocr_loop imgs [] ?s0] =>
    destruct (ocr_loop_frame imgs [] s0) as [Hf Ht];
    destruct (ocr_loop imgs [] s0) as [[t|e] s1] end;
  simpl in *; [|now split].
  destruct (truthy (strip t)); simpl; now split.
Qed.

(** Whatever the [try] block returns has been trimmed and is not empty. *)
Lemma extract_text_try_result (pdf_file : UploadedFile) (s : state) (r : str) :
  fst (extract_text_try pdf_file s) = Return (Some r) ->
  exists t, r = strip t /\ truthy (strip t) = true.
Proof.
  unfold extract_text_try. unfold_calls.
  destruct (tmp_created pdf_file) as [[]|e]; simpl; [|discriminate].
  destruct (bytes_read pdf_file) as [[]|e]; simpl; [|discriminate].
  destruct (bytes_written pdf_file) as [[]|e]; simpl; [|discriminate].
  destruct (pages pdf_file) as [ps|e]; simpl; [|discriminate].
  destruct (page_texts ps) as [ts|e]; simpl; [|discriminate].
  destruct (truthy (strip (join [NL] ts))) eqn:E; simpl.
  - intros [= <-]. eauto.
  - destruct (images pdf_file) as [imgs|e]; simpl; [|discriminate].
    match goal with |- context [ocr_loop imgs [] ?s0] =>
      destruct (ocr_loop imgs [] s0) as [[t|e] s1] end;
    simpl; [|discriminate].
    destruct (truthy (strip t)) eqn:E'; simpl; [|discriminate].
    intros [= <-]. eauto.
Qed.

Lemma extract_text_finally_bound (fs : list path) (t : list event) (p : path) :
  In p fs ->
  extract_text_finally (mkState fs t (Some p)) =
  (Return tt, mkState (filter (fun q => negb (Nat.eqb p q)) fs) t (Some p)).
Proof.
  intros Hin. unfold extract_text_finally, os.path_exists, os.remove.
  unfold_calls. simpl.
  assert (E : existsb (Nat.eqb p) fs = true).
  { apply existsb_exists. exists p. split; [exact Hin|apply Nat.eqb_refl]. }
  rewrite E. simpl. rewrite E. reflexivity.
Qed.

Lemma extract_text_finally_unbound (fs : list path) (t : list event) :
  extract_text_finally (mkState fs t None) =
  (Raise (UnboundLocalError (lit "temp_file_path")), mkState fs t None).
Proof. reflexivity. Qed.

(** The handler and the [finally] block never turn a failure into a
    result: a result of the function is a result of the [try] block. *)
Lemma extract_text_result_from_try (pdf_file : UploadedFile) (s : state) (r : str) :
  fst (extract_text_from_pdf pdf_file s) = Return (Some r) ->
  exists s0, fst (extract_text_try pdf_file s0) = Return (Some r).
Proof.
  unfold extract_text_from_pdf, try_finally, try_except, extract_text_except.
  unfold enter_frame, bind at 1. simpl. intros H.
  match type of H with context [extract_text_try pdf_file ?s0] =>
    exists s0; destruct (extract_text_try pdf_file s0) as [[o|e] s1] end;
  simpl in *.
  - destruct (extract_text_finally s1) as [[[]|e] s2]; simpl in *; [|discriminate].
    exact H.
  - unfold_calls. simpl in *.
    match type of H with context [extract_text_finally ?s2] =>
      destruct (extract_text_finally s2) as [[[]|e'] s3] end;
    simpl in H; discriminate.
Qed.

(** On every path that follows a stored upload the temporary file is gone
    when the function is left: the disk is as it was. *)
Lemma extract_text_removes_stored_file (pdf_file : UploadedFile) (s : state) :
  stored pdf_file ->
  files (snd (extract_text_from_pdf pdf_file s)) = files s.
Proof.
  intros Hst.
  unfold extract_text_from_pdf, try_finally, try_except, extract_text_except.
  unfold enter_frame, bind at 1. simpl.
  match goal with |- context [extract_text_try pdf_file ?s0] =>
    destruct (extract_text_try_stored pdf_file s0 Hst) as [Hf Ht];
    destruct (extract_text_try pdf_file s0) as [[o|e] [fs1 t1 l1]] end;
  simpl in Hf, Ht; subst fs1 l1; unfold_calls; simpl;
  rewrite extract_text_finally_bound by (now left); simpl;
  apply remove_fresh.
Qed.

(** The whole run for an upload that is stored and whose pages and page
    images all answer. *)
Lemma extract_text_of_document (texts : list (option str)) (scans : list str)
    (s : state) :
  let p := tempfile.fresh (files s) in
  let text := join [NL] (non_empty_texts texts) in
  extract_text_from_pdf (document texts scans) s =
  if truthy (strip text)
  then (Return (Some (strip text)),
        mkState (files s) (trace s ++ [PdfReaderOpen p]) (Some p))
  else if truthy (strip (ocr_output scans))
  then (Return (Some (strip (ocr_output scans))),
        mkState (files s)
          (((trace s ++ [PdfReaderOpen p])
              ++ [StWarning (lit "No text could be extracted from the PDF. Attempting OCR...")]
              ++ [ConvertFromPath p])
             ++ repeat ImageToString (List.length scans))
          (Some p))
  else (Return None,
        mkState (files s)
          ((((trace s ++ [PdfReaderOpen p])
               ++ [StWarning (lit "No text could be extracted from the PDF. Attempting OCR...")]
               ++ [ConvertFromPath p])
              ++ repeat ImageToString (List.length scans))
             ++ [StError (lit "OCR failed to extract text. Ensure the PDF contains readable text or images.")])
          (Some p)).
Proof.
  intros p text.
  unfold extract_text_from_pdf, try_finally, try_except, extract_text_try.
  unfold_calls. simpl.
  rewrite page_texts_answers. simpl. fold p text.
  destruct (truthy (strip text)); simpl.
  - rewrite extract_text_finally_bound by (now left).
    unfold p. rewrite remove_fresh. reflexivity.
  - rewrite ocr_loop_answers. simpl.
    destruct (truthy (strip (ocr_output scans))); simpl;
      rewrite extract_text_finally_bound by (now left);
      unfold p; rewrite remove_fresh, <- ?app_assoc; reflexivity.
Qed.

(** ** The two generators *)

Lemma submitted_app (t1 t2 : list event) :
  submitted (t1 ++ t2) = submitted t1 ++ submitted t2.
Proof.
  induction t1 as [|e t1 IH]; simpl; [reflexivity|].
  destruct e; simpl; now rewrite ?IH.
Qed.

Lemma create_mindmap_markdown_run (g : Genai) (text : str) (s : state) :
  create_mindmap_markdown g text s =
  match generate_content g model_name (outline_request text) with
  | Raise e =>
      (Return None,
       mkState (files s)
         ((trace s ++ outline_call text)
            ++ [StError (lit "Error generating mindmap: " ++ str_of_exn e)])
         (temp_file_path s))
  | Return reply =>
      if reply_is_empty reply
      then (Return None,
            mkState (files s)
              ((trace s ++ outline_call text)
                 ++ [StError (lit "Received empty response from Gemini AI")])
              (temp_file_path s))
      else (Return (Some (response_text_strip reply)),
            mkState (files s) (trace s ++ outline_call text) (temp_file_path s))
  end.
Proof.
  unfold create_mindmap_markdown, try_except, outline_call, outline_request, capped.
  unfold_calls.
  destruct (max_chars <? len text)%Z; simpl;
    rewrite <- ?app_assoc; simpl;
    match goal with |- context [generate_content g ?m ?p] =>
      destruct (generate_content g m p) as [reply|e] end; simpl;
    try destruct (reply_is_empty reply); simpl;
    rewrite <- ?app_assoc; reflexivity.
Qed.

Lemma generate_questions_run (g : Genai) (text : str) (s : state) :
  generate_questions_from_text g text s =
  match generate_content g model_name (questions_request text) with
  | Raise e =>
      (Return None,
       mkState (files s)
         ((trace s ++ [GenerateContent model_name (questions_request text)])
            ++ [StError (lit "Error generating questions: " ++ str_of_exn e)])
         (temp_file_path s))
  | Return reply =>
      if reply_is_empty reply
      then (Return None,
            mkState (files s)
              ((trace s ++ [GenerateContent model_name (questions_request text)])
                 ++ [StError (lit "Received empty response from Gemini AI")])
              (temp_file_path s))
      else (Return (Some (split NL (response_text_strip reply))),
            mkState (files s)
              (trace s ++ [GenerateContent model_name (questions_request text)])
              (temp_file_path s))
  end.
Proof.
  unfold generate_questions_from_text, try_except, questions_request.
  unfold_calls. simpl.
  match goal with |- context [generate_content g ?m ?p] =>
    destruct (generate_content g m p) as [reply|e] end; simpl;
  try destruct (reply_is_empty reply); simpl; reflexivity.
Qed.

(** A reply is rejected exactly when it is blank in the sense above. *)
Lemma reply_is_empty_blank (reply : option str) :
  reply_is_empty reply = true <-> blank_reply (Return reply).
Proof.
  destruct reply as [t|]; simpl; [|tauto].
  rewrite orb_true_iff, !negb_true_iff, !truthy_false.
  split; [|tauto]. intros [->|H]; [reflexivity|exact H].
Qed.

(** Each generator, once called, hands exactly one prompt to the model. *)
Lemma create_mindmap_markdown_submits (g : Genai) (text : str) (s : state) :
  submitted (trace (snd (create_mindmap_markdown g text s))) =
  submitted (trace s) ++ [outline_request text].
Proof.
  rewrite create_mindmap_markdown_run. unfold outline_call.
  destruct (generate_content g model_name (outline_request text)) as [reply|e];
    [destruct (reply_is_empty reply)|];
    destruct (max_chars <? len text)%Z; simpl;
    rewrite !submitted_app; simpl; rewrite ?app_nil_r; reflexivity.
Qed.

Lemma generate_questions_submits (g : Genai) (text : str) (s : state) :
  submitted (trace (snd (generate_questions_from_text g text s))) =
  submitted (trace s) ++ [questions_request text].
Proof.
  rewrite generate_questions_run.
  destruct (generate_content g model_name (questions_request text)) as [reply|e];
    [destruct (reply_is_empty reply)|]; simpl;
    rewrite !submitted_app; simpl; rewrite ?app_nil_r; reflexivity.
Qed.

(** The prompt carries the text as it is, between two fixed parts. *)
Lemma format_outline_prompt (x : str) :
  format outline_prompt (lit "text") x =
  firstn 634 outline_prompt ++ x ++ skipn 640 outline_prompt.
Proof. vm_compute. reflexivity. Qed.

Lemma format_questions_prompt (x : str) :
  format questions_prompt (lit "text") x =
  firstn 206 questions_prompt ++ x ++ skipn 212 questions_prompt.
Proof. vm_compute. reflexivity. Qed.

(** ** The renderer *)

Lemma replace_backtick_cons (c : char) (s : str) :
  replace [BACKTICK] [BACKSLASH; BACKTICK] (c :: s) =
  if (c =? BACKTICK)%N
  then BACKSLASH :: BACKTICK :: replace [BACKTICK] [BACKSLASH; BACKTICK] s
  else c :: replace [BACKTICK] [BACKSLASH; BACKTICK] s.
Proof.
  unfold replace. cbn [replace_from starts_with List.length Nat.sub app].
  rewrite andb_true_r, (N.eqb_sym BACKTICK c).
  destruct (c =? BACKTICK)%N; reflexivity.
Qed.

Lemma replace_dollar_brace_cons (c : char) (s : str) :
  replace [DOLLAR; LBRACE] [BACKSLASH; DOLLAR; LBRACE] (c :: s) =
  if (c =? DOLLAR)%N
  then match s with
       | c' :: s' =>
           if (c' =? LBRACE)%N
           then BACKSLASH :: DOLLAR :: LBRACE
                  :: replace [DOLLAR; LBRACE] [BACKSLASH; DOLLAR; LBRACE] s'
           else c :: replace [DOLLAR; LBRACE] [BACKSLASH; DOLLAR; LBRACE] s
       | [] => [c]
       end
  else c :: replace [DOLLAR; LBRACE] [BACKSLASH; DOLLAR; LBRACE] s.
Proof.
  unfold replace. cbn [replace_from starts_with List.length Nat.sub app].
  rewrite (N.eqb_sym DOLLAR c).
  destruct (c =? DOLLAR)%N; cbn [andb]; [|reflexivity].
  destruct s as [|c' s']; [reflexivity|].
  cbn [replace_from starts_with]. rewrite andb_true_r, (N.eqb_sym LBRACE c').
  destruct (c' =? LBRACE)%N; reflexivity.
Qed.

(** The two replacements of the source, one after the other, are the
    escaping in one pass. *)
Lemma escape_in_one_pass (s : str) :
  replace [DOLLAR; LBRACE] [BACKSLASH; DOLLAR; LBRACE]
    (replace [BACKTICK] [BACKSLASH; BACKTICK] s) = escape_once s.
Proof.
  remember (List.length s) as n eqn:Hn.
  assert (Hle : List.length s <= n) by lia. clear Hn.
  revert s Hle. induction n as [|n IH]; intros s Hle.
  - destruct s; [reflexivity|simpl in Hle; lia].
  - destruct s as [|c s]; [reflexivity|]. simpl in Hle.
    rewrite replace_backtick_cons.
    destruct (N.eqb_spec c BACKTICK) as [->|Hbt].
    + rewrite replace_dollar_brace_cons. simpl (_ =? _)%N. cbv iota.
      rewrite replace_dollar_brace_cons. simpl (_ =? _)%N. cbv iota.
      simpl escape_once. rewrite IH by lia. reflexivity.
    + rewrite replace_dollar_brace_cons.
      cbn [escape_once]. apply N.eqb_neq in Hbt. rewrite Hbt.
      destruct (c =? DOLLAR)%N; [|now rewrite IH by lia].
      destruct s as [|c' s']; [reflexivity|]. simpl in Hle.
      rewrite replace_backtick_cons.
      destruct (N.eqb_spec c' BACKTICK) as [->|Hbt'].
      * simpl (_ =? _)%N. cbv iota.
        rewrite <- (IH (BACKTICK :: s')) by (simpl; lia).
        rewrite replace_backtick_cons. reflexivity.
      * destruct (c' =? LBRACE)%N eqn:Hlb.
        -- rewrite IH by lia. reflexivity.
        -- rewrite <- (IH (c' :: s')) by (simpl; lia).
           rewrite replace_backtick_cons.
           apply N.eqb_neq in Hbt'. rewrite Hbt'. reflexivity.
Qed.

(** The rendered page is the fixed text before the literal's content, the
    escaped markdown, and the fixed text after it. *)
Lemma create_markmap_html_shape (markdown_content : str) :
  create_markmap_html markdown_content =
  html_before ++ escape_once markdown_content ++ html_after.
Proof.
  unfold create_markmap_html. rewrite escape_in_one_pass.
  generalize (escape_once markdown_content) as x. intros x.
  vm_compute. reflexivity.
Qed.

(** The literal opens with the last character of [html_before] and is
    meant to close with the first of [html_after]. *)
Lemma markmap_literal_delimiters :
  last html_before 0%N = BACKTICK /\ hd 0%N html_after = BACKTICK.
Proof. split; vm_compute; reflexivity. Qed.




(** ** The script *)

Lemma configure_genai_run (g : Genai) (k : option str) (s : state) :
  exists b evs,
    configure_genai g k s =
      (Return b, mkState (files s) (trace s ++ evs) (temp_file_path s)) /\
    submitted evs = [] /\
    (truthy_opt k = false -> b = false /\ evs = [StError missing_key_message]).
Proof.
  unfold configure_genai, try_except. unfold_calls.
  destruct k as [[|c key]|]; simpl.
  - exists false, [StError missing_key_message]. repeat split; reflexivity.
  - destruct (configure g (c :: key)) as [[]|e]; simpl.
    + exists true, [GenaiConfigure (c :: key)]. repeat split; discriminate.
    + exists false, [GenaiConfigure (c :: key);
                     StError (lit "Error configuring Google API: " ++ str_of_exn e)].
      rewrite <- app_assoc. repeat split; discriminate.
  - exists false, [StError missing_key_message]. repeat split; reflexivity.
Qed.

Lemma ocr_loop_submits_nothing (imgs : list image) (acc : str) (s : state) :
  submitted (trace (snd (ocr_loop imgs acc s))) = submitted (trace s).
Proof.
  revert acc s. induction imgs as [|i imgs IH]; intros acc s; simpl;
    [reflexivity|].
  unfold bind, pytesseract.image_to_string, emit, lift. simpl.
  destruct (image_to_string i) as [t|e]; simpl.
  - rewrite IH. simpl. rewrite submitted_app. simpl. apply app_nil_r.
  - rewrite submitted_app. simpl. apply app_nil_r.
Qed.

Lemma extract_text_finally_trace (s : state) :
  trace (snd (extract_text_finally s)) = trace s.
Proof.
  unfold extract_text_finally, os.path_exists, os.remove. unfold_calls.
  destruct (temp_file_path s) as [p|]; simpl; [|reflexivity].
  destruct (existsb (Nat.eqb p) (files s)) eqn:E; simpl; [|reflexivity].
  rewrite E. reflexivity.
Qed.

Lemma extract_text_try_submits_nothing (pdf_file : UploadedFile) (s : state) :
  submitted (trace (snd (extract_text_try pdf_file s))) = submitted (trace s).
Proof.
  unfold extract_text_try. unfold_calls.
  destruct (tmp_created pdf_file) as [[]|e]; simpl; [|reflexivity].
  destruct (bytes_read pdf_file) as [[]|e]; simpl; [|reflexivity].
  destruct (bytes_written pdf_file) as [[]|e]; simpl; [|reflexivity].
  destruct (pages pdf_file) as [ps|e]; simpl;
    [|rewrite submitted_app; simpl; apply app_nil_r].
  destruct (page_texts ps) as [ts|e]; simpl;
    [|rewrite submitted_app; simpl; apply app_nil_r].
  destruct (truthy (strip (join [NL] ts))); simpl;
    [rewrite submitted_app; simpl; apply app_nil_r|].
  destruct (images pdf_file) as [imgs|e]; simpl;
    [|rewrite !submitted_app; simpl; now rewrite !app_nil_r].
  match goal with |- context [ocr_loop imgs [] ?s0] =>
    pose proof (ocr_loop_submits_nothing imgs [] s0) as Ho;
    destruct (ocr_loop imgs [] s0) as [[t|e] s1] end;
  simpl in *; rewrite !submitted_app in Ho; simpl in Ho;
  rewrite !app_nil_r in Ho; [|exact Ho].
  destruct (truthy (strip t)); simpl; [exact Ho|].
  rewrite submitted_app, Ho. simpl. apply app_nil_r.
Qed.

(** Text extraction never talks to the model. *)
Lemma extract_text_submits_nothing (pdf_file : UploadedFile) (s : state) :
  submitted (trace (snd (extract_text_from_pdf pdf_file s))) = submitted (trace s).
Proof.
  unfold extract_text_from_pdf, try_finally, try_except, extract_text_except.
  unfold enter_frame, bind at 1. simpl.
  match goal with |- context [extract_text_try pdf_file ?s0] =>
    pose proof (extract_text_try_submits_nothing pdf_file s0) as Ht;
    destruct (extract_text_try pdf_file s0) as [[o|e] s1] end; simpl in *.
  - pose proof (extract_text_finally_trace s1) as Hf.
    destruct (extract_text_finally s1) as [[[]|e] s2]; simpl in *;
      now rewrite Hf.
  - unfold_calls. simpl.
    match goal with |- context [extract_text_finally ?s2] =>
      pose proof (extract_text_finally_trace s2) as Hf;
      destruct (extract_text_finally s2) as [[[]|e'] s3] end; simpl in *;
    rewrite Hf, submitted_app, Ht; simpl; apply app_nil_r.
Qed.

(** When extraction hands back no text, the script shows nothing more and
    calls no generator. *)
Lemma main_without_text (ss : session) (pdf_file : UploadedFile) (s : state) :
  uploaded_file ss = Some pdf_file ->
  (forall s0, fst (extract_text_from_pdf pdf_file s0) = Return None) ->
  submitted (trace (snd (main ss s))) = submitted (trace s).
Proof.
  intros Hup Hnone. unfold main.
  unfold st.set_page_config, st.title, st.markdown, st.file_uploader, st.spinner.
  unfold emit, bind. simpl.
  match goal with |- context [configure_genai ?g ?k ?s0] =>
    destruct (configure_genai_run g k s0) as (b & evs & -> & Hevs & _) end.
  simpl. destruct b; simpl.
  - rewrite Hup.
    match goal with |- context [extract_text_from_pdf pdf_file ?s0] =>
      pose proof (Hnone s0) as Hr;
      pose proof (extract_text_submits_nothing pdf_file s0) as Hs;
      destruct (extract_text_from_pdf pdf_file s0) as [r s1] end.
    simpl in Hr, Hs. subst r. simpl. rewrite Hs. simpl.
    rewrite !submitted_app, Hevs. simpl. now rewrite !app_nil_r.
  - rewrite !submitted_app, Hevs. simpl. now rewrite !app_nil_r.
Qed.

Lemma main_without_key (ss : session) (s : state) :
  truthy_opt (API_KEY ss) = false ->
  main ss s =
  (Return tt,
   mkState (files s)
     (trace s ++ [StSetPageConfig (lit "wide");
                  StTitle ([128196%N] ++ lit " PDF to Mindmap Converter");
                  StMarkdown (lit "Convert your PDF content into an interactive mindmap.");
                  StError missing_key_message])
     (temp_file_path s)).
Proof.
  intros Hk. unfold main.
  unfold st.set_page_config, st.title, st.markdown.
  unfold emit, bind. simpl.
  match goal with |- context [configure_genai ?g ?k ?s0] =>
    destruct (configure_genai_run g k s0) as (b & evs & -> & _ & Hb) end.
  destruct (Hb Hk) as [-> ->]. simpl.
  rewrite <- !app_assoc. reflexivity.
Qed.

(** * The claims *)

(** C1 (the code falls short of the claim).  The renderer escapes every
    backtick and every dollar-brace once and copies the rest
    ([escape_in_one_pass], [create_markmap_html_shape]), and that keeps a
    markdown without backslashes inside the literal
    ([escaped_stays_inside]).  A backslash of the markdown is copied too:
    before a backtick it takes the added backslash for itself, and the
    backtick closes the literal.  Here the page for the markdown
    backslash, backtick, [;alert(1);//] carries the content backslash,
    backslash, backtick, [;alert(1);//], and the scanner leaves the literal
    at that backtick with [;alert(1);//] as script text after it. *)
Theorem create_markmap_html_backslash_closes_literal :
  create_markmap_html injected_markdown =
    html_before ++ ([BACKSLASH; BACKSLASH; BACKTICK] ++ lit ";alert(1);//")
      ++ html_after /\
  scan_template (([BACKSLASH; BACKSLASH; BACKTICK] ++ lit ";alert(1);//")
                   ++ html_after) =
    Closed (lit ";alert(1);//" ++ html_after).
Proof. split; vm_compute; reflexivity. Qed.

(** C2.  When the embedded text of a stored upload and the output of the
    OCR loop are both empty once trimmed, [extract_text_from_pdf] returns
    [None], and a run of [main] on that upload hands no prompt to the
    model: neither generator is called. *)
Theorem blank_pdf_fails_and_stops (texts : list (option str)) (scans : list str) :
  strip (join [NL] (non_empty_texts texts)) = [] ->
  strip (ocr_output scans) = [] ->
  (forall s, fst (extract_text_from_pdf (document texts scans) s) = Return None) /\
  (forall ss fs,
     uploaded_file ss = Some (document texts scans) ->
     submitted (trace (snd (main ss (initial fs)))) = []).
Proof.
  intros Ht Ho.
  assert (Hnone : forall s,
             fst (extract_text_from_pdf (document texts scans) s) = Return None).
  { intros s. pose proof (extract_text_of_document texts scans s) as H.
    cbv zeta in H. rewrite H, Ht, Ho. reflexivity. }
  split; [exact Hnone|].
  intros ss fs Hup.
  now rewrite (main_without_text ss (document texts scans) (initial fs) Hup Hnone).
Qed.

Lemma blank_pdf_fails_and_stops_witness :
  (forall s,
     fst (extract_text_from_pdf (document [Some (lit " "); None] [lit " "; []]) s)
     = Return None) /\
  (forall ss fs,
     uploaded_file ss = Some (document [Some (lit " "); None] [lit " "; []]) ->
     submitted (trace (snd (main ss (initial fs)))) = []).
Proof.
  apply (blank_pdf_fails_and_stops [Some (lit " "); None] [lit " "; []]);
    vm_compute; reflexivity.
Defined.

(** C3.  A text of more than 30000 characters goes to the model as its
    first 30000 characters followed by three dots, after the truncation
    notice has been shown; a text of at most 30000 characters goes as it
    is, and the notice is not shown.  In both cases one prompt is
    submitted. *)
Theorem outline_truncation (g : Genai) (text : str) (s : state) :
  exists new,
    trace (snd (create_mindmap_markdown g text s)) = trace s ++ new /\
    ((max_chars < len text)%Z ->
       submitted new =
         [format outline_prompt (lit "text") (slice_to 30000 text ++ lit "...")] /\
       len (slice_to 30000 text) = 30000%Z /\
       In (StWarning truncation_notice) new) /\
    ((len text <= max_chars)%Z ->
       submitted new = [format outline_prompt (lit "text") text] /\
       ~ In (StWarning truncation_notice) new).
Proof.
  rewrite create_mindmap_markdown_run.
  unfold outline_call, outline_request, capped.
  destruct (Z.ltb_spec max_chars (len text)) as [Hlong|Hshort].
  - destruct (generate_content g model_name _) as [reply|e];
      [destruct (reply_is_empty reply)|]; simpl;
      rewrite <- ?app_assoc; eexists; (split; [reflexivity|]);
      (split; [intros _|intros; lia]);
      (split; [reflexivity|]);
      (split; [|now left]);
      unfold slice_to, len in *; rewrite length_firstn;
      unfold max_chars in Hlong; lia.
  - destruct (generate_content g model_name _) as [reply|e];
      [destruct (reply_is_empty reply)|]; simpl;
      rewrite <- ?app_assoc; eexists; (split; [reflexivity|]);
      (split; [intros; lia|intros _]);
      (split; [reflexivity|]);
      simpl; intros H; repeat destruct H as [H|H]; try discriminate; exact H.
Qed.

Lemma outline_truncation_witness :
  (exists new,
     submitted new =
       [format outline_prompt (lit "text") (slice_to 30000 long_text ++ lit "...")] /\
     In (StWarning truncation_notice) new) /\
  (exists new,
     submitted new = [format outline_prompt (lit "text") (lit "short")] /\
     ~ In (StWarning truncation_notice) new).
Proof.
  split.
  - destruct (outline_truncation (answering (Return None)) long_text (initial []))
      as (new & _ & Hlong & _).
    exists new.
    destruct Hlong as (Hs & _ & Hw); [vm_compute; reflexivity|].
    split; [exact Hs|exact Hw].
  - destruct (outline_truncation (answering (Return None)) (lit "short") (initial []))
      as (new & _ & _ & Hshort).
    exists new. apply Hshort. vm_compute. discriminate.
Defined.

(** C4 (as amended).  Without a credential, unset or empty, [main] shows
    the missing-key error and returns at once: after the page header the
    only event is that error, so the generators are out of reach, and the
    file uploader is not shown either, so no uploaded PDF is read and no
    text is extracted in that run. *)
Theorem main_without_credential (ss : session) (fs : list path) :
  truthy_opt (API_KEY ss) = false ->
  main ss (initial fs) =
  (Return tt,
   mkState fs
     [StSetPageConfig (lit "wide");
      StTitle ([128196%N] ++ lit " PDF to Mindmap Converter");
      StMarkdown (lit "Convert your PDF content into an interactive mindmap.");
      StError missing_key_message]
     None).
Proof.
  intros Hk. rewrite (main_without_key ss (initial fs) Hk). reflexivity.
Qed.

Lemma main_without_credential_witness :
  main keyless_session (initial [4; 2]) =
  (Return tt,
   mkState [4; 2]
     [StSetPageConfig (lit "wide");
      StTitle ([128196%N] ++ lit " PDF to Mindmap Converter");
      StMarkdown (lit "Convert your PDF content into an interactive mindmap.");
      StError missing_key_message]
     None).
Proof.
  apply (main_without_credential keyless_session [4; 2]). reflexivity.
Defined.

(** C4 as the specification words it fails: the session below has no
    credential and holds an upload from which the extraction function,
    called on its own, returns the text; the run of [main] on that session
    shows no uploader and makes no call of the PDF or OCR libraries. *)
Lemma keyless_run_extracts_nothing :
  API_KEY keyless_session = None /\
  uploaded_file keyless_session = Some hello_pdf /\
  fst (extract_text_from_pdf hello_pdf (initial [])) = Return (Some (lit "hello")) /\
  existsb is_extraction (trace (snd (main keyless_session (initial [])))) = false /\
  existsb (fun e => match e with StFileUploader _ _ => true | _ => false end)
    (trace (snd (main keyless_session (initial [])))) = false.
Proof. repeat split; vm_compute; reflexivity. Qed.

(** C5 (the code falls short of the claim).  When writing the uploaded
    bytes fails, the temporary file has been created but its name is not
    yet bound: the handler reports the error, the [finally] block reads
    the unbound [temp_file_path], the call ends with [UnboundLocalError]
    and the file stays on disk.  On every path after a successful write
    the file is removed ([extract_text_removes_stored_file]). *)
Theorem temp_file_survives_failed_write :
  extract_text_from_pdf unwritable_upload (initial []) =
  (Raise (UnboundLocalError (lit "temp_file_path")),
   mkState [tempfile.fresh []]
     [StError (lit "Error reading PDF: No space left on device")]
     None).
Proof. vm_compute. reflexivity. Qed.

(** C6 (as amended).  A reply that is not blank is trimmed and the trimmed
    text is cut at every newline, nothing else: the entries hold no
    newline and, joined by newlines, give the trimmed reply back, so every
    line of the trimmed reply, blank or not, is an entry, in order.  The
    reply [1. Why?], newline, [2. How?], newline yields those two
    entries. *)
Theorem questions_split_trimmed_reply :
  (forall (g : Genai) (text : str) (s : state) (t : str),
     generate_content g model_name (questions_request text) = Return (Some t) ->
     strip t <> [] ->
     exists qs,
       fst (generate_questions_from_text g text s) = Return (Some qs) /\
       qs = split NL (strip t) /\
       join [NL] qs = strip t /\
       Forall (fun q => ~ In NL q) qs) /\
  (forall (g : Genai) (text : str) (s : state),
     generate_content g model_name (questions_request text)
       = Return (Some two_questions_reply) ->
     fst (generate_questions_from_text g text s)
       = Return (Some [lit "1. Why?"; lit "2. How?"])).
Proof.
  assert (Hrun : forall g text s t,
             generate_content g model_name (questions_request text) = Return (Some t) ->
             strip t <> [] ->
             fst (generate_questions_from_text g text s)
               = Return (Some (split NL (strip t)))).
  { intros g text s t Hr Hn. rewrite generate_questions_run, Hr.
    destruct (reply_is_empty (Some t)) eqn:E; [|reflexivity].
    apply reply_is_empty_blank in E. simpl in E. contradiction. }
  split.
  - intros g text s t Hr Hn. exists (split NL (strip t)).
    repeat split.
    + now apply Hrun.
    + apply join_split.
    + apply split_entries_without_sep.
  - intros g text s Hr. rewrite (Hrun g text s _ Hr); [reflexivity|].
    vm_compute. discriminate.
Qed.

Lemma questions_split_trimmed_reply_witness :
  (exists qs,
     fst (generate_questions_from_text
            (answering (Return (Some led_by_blank_line_reply))) (lit "text") (initial []))
       = Return (Some qs) /\
     qs = split NL (strip led_by_blank_line_reply) /\
     join [NL] qs = strip led_by_blank_line_reply /\
     Forall (fun q => ~ In NL q) qs) /\
  fst (generate_questions_from_text
         (answering (Return (Some two_questions_reply))) (lit "text") (initial []))
  = Return (Some [lit "1. Why?"; lit "2. How?"]).
Proof.
  split.
  - apply (proj1 questions_split_trimmed_reply
             (answering (Return (Some led_by_blank_line_reply))) (lit "text") (initial [])).
    + reflexivity.
    + vm_compute. discriminate.
  - apply (proj2 questions_split_trimmed_reply
             (answering (Return (Some two_questions_reply))) (lit "text") (initial [])).
    reflexivity.
Defined.

(** C6 as the specification words it fails: the reply below opens with a
    blank line, which is one of its lines and is no entry of the list. *)
Lemma leading_blank_line_is_no_entry :
  lines led_by_blank_line_reply = [[]; lit "1. Why?"; lit "2. How?"] /\
  fst (generate_questions_from_text
         (answering (Return (Some led_by_blank_line_reply))) (lit "text") (initial []))
  = Return (Some [lit "1. Why?"; lit "2. How?"]) /\
  Some (lines led_by_blank_line_reply) <> Some [lit "1. Why?"; lit "2. How?"].
Proof. repeat split; vm_compute; try reflexivity. discriminate. Qed.

(** C7.  [create_mindmap_markdown] returns [None] exactly when the model
    gives no reply (the call raises, or the reply has no text) or a reply
    that is empty once trimmed; every other reply comes back trimmed,
    whatever its headings look like. *)
Theorem outline_reply_handling (g : Genai) (text : str) (s : state) :
  let reply := generate_content g model_name (outline_request text) in
  (fst (create_mindmap_markdown g text s) = Return None <-> blank_reply reply) /\
  (forall t, reply = Return (Some t) -> strip t <> [] ->
     fst (create_mindmap_markdown g text s) = Return (Some (strip t))).
Proof.
  intros reply. rewrite create_mindmap_markdown_run. fold reply.
  destruct reply as [o|e] eqn:E.
  - pose proof (reply_is_empty_blank o) as Hb.
    destruct (reply_is_empty o) eqn:Ho; simpl fst.
    + split; [split; [intros _; now apply Hb|reflexivity]|].
      intros t [= ->] Hn. exfalso. apply Hn. now apply Hb.
    + split.
      * split; [discriminate|]. intros H. apply Hb in H. discriminate.
      * intros t [= ->] _. reflexivity.
  - simpl. split; [tauto|discriminate].
Qed.

Lemma outline_reply_handling_witness :
  fst (create_mindmap_markdown
         (answering (Return (Some (lit "  # Topic  ")))) (lit "text") (initial []))
  = Return (Some (strip (lit "  # Topic  "))) /\
  fst (create_mindmap_markdown
         (answering (Return (Some (lit "   ")))) (lit "text") (initial []))
  = Return None.
Proof.
  split.
  - apply (proj2 (outline_reply_handling
                    (answering (Return (Some (lit "  # Topic  ")))) (lit "text")
                    (initial []))).
    + reflexivity.
    + vm_compute. discriminate.
  - apply (proj1 (outline_reply_handling
                    (answering (Return (Some (lit "   ")))) (lit "text")
                    (initial []))).
    vm_compute. reflexivity.
Defined.

(** C8 (as amended).  For a stored upload whose pages all answer and whose
    embedded text, joined, is not empty once trimmed, the result is that
    text trimmed: the non-empty page texts in page order, joined by
    newlines, without the white space at either end.  The PDF is opened
    and nothing else is called: no OCR. *)
Theorem embedded_text_is_returned_trimmed
    (texts : list (option str)) (scans : list str) (s : state) :
  strip (join [NL] (non_empty_texts texts)) <> [] ->
  fst (extract_text_from_pdf (document texts scans) s)
    = Return (Some (strip (join [NL] (non_empty_texts texts)))) /\
  trace (snd (extract_text_from_pdf (document texts scans) s))
    = trace s ++ [PdfReaderOpen (tempfile.fresh (files s))].
Proof.
  intros Hn. pose proof (extract_text_of_document texts scans s) as H.
  cbv zeta in H. rewrite H.
  apply truthy_true in Hn. rewrite Hn. split; reflexivity.
Qed.

Lemma embedded_text_is_returned_trimmed_witness :
  fst (extract_text_from_pdf
         (document [Some (lit " a "); None; Some []; Some (lit "b")] [lit "x"])
         (initial []))
    = Return (Some (strip (join [NL]
                (non_empty_texts [Some (lit " a "); None; Some []; Some (lit "b")])))) /\
  trace (snd (extract_text_from_pdf
         (document [Some (lit " a "); None; Some []; Some (lit "b")] [lit "x"])
         (initial [])))
    = trace (initial []) ++ [PdfReaderOpen (tempfile.fresh (files (initial [])))].
Proof.
  apply (embedded_text_is_returned_trimmed
           [Some (lit " a "); None; Some []; Some (lit "b")] [lit "x"] (initial [])).
  vm_compute. discriminate.
Defined.

(** C8 as the specification words it fails: a page whose embedded text is
    one space is a page with embedded text, yet the document goes through
    OCR and the OCR text is returned; and the text of a page that starts
    with a space comes back without that space. *)
Lemma whitespace_page_goes_to_ocr :
  fst (extract_text_from_pdf blank_page_pdf (initial [])) = Return (Some (lit "scan")) /\
  existsb is_ocr (trace (snd (extract_text_from_pdf blank_page_pdf (initial [])))) = true /\
  fst (extract_text_from_pdf padded_page_pdf (initial [])) = Return (Some (lit "a")) /\
  join [NL] (non_empty_texts [Some (lit " a")]) <> lit "a".
Proof. repeat split; vm_compute; try reflexivity. discriminate. Qed.

(** C9.  A text that [extract_text_from_pdf] returns, from the embedded
    text or from OCR, is left unchanged by trimming: it is not empty and
    it starts and ends with a character that is not white space. *)
Theorem extracted_text_is_trimmed (pdf_file : UploadedFile) (s : state) (r : str) :
  fst (extract_text_from_pdf pdf_file s) = Return (Some r) ->
  strip r = r /\ r <> [] /\ starts_visible r = true /\ ends_visible r = true.
Proof.
  intros H. apply extract_text_result_from_try in H. destruct H as [s0 H].
  apply extract_text_try_result in H. destruct H as (t & -> & Ht).
  apply truthy_true in Ht.
  destruct (strip_shape t) as [E|[Hs He]]; [contradiction|].
  repeat split; try assumption. apply strip_idempotent.
Qed.

Lemma extracted_text_is_trimmed_witness :
  strip (lit "scan") = lit "scan" /\ lit "scan" <> [] /\
  starts_visible (lit "scan") = true /\ ends_visible (lit "scan") = true.
Proof.
  apply (extracted_text_is_trimmed blank_page_pdf (initial [])).
  vm_compute. reflexivity.
Defined.

(** C10.  In a list that [generate_questions_from_text] returns no entry
    holds a newline, there is at least one entry, and the first and the
    last entry each hold a character that is not white space. *)
Theorem questions_entries_shape
    (g : Genai) (text : str) (s : state) (qs : list str) :
  fst (generate_questions_from_text g text s) = Return (Some qs) ->
  Forall (fun q => ~ In NL q) qs /\ qs <> [] /\
  has_visible (hd [] qs) = true /\ has_visible (last qs []) = true.
Proof.
  rewrite generate_questions_run.
  destruct (generate_content g model_name (questions_request text)) as [o|e];
    [|discriminate].
  destruct (reply_is_empty o) eqn:Ho; [discriminate|].
  simpl. intros [= <-].
  destruct o as [t|]; [|discriminate]. simpl in *.
  apply orb_false_iff in Ho. destruct Ho as [_ Ho].
  apply negb_false_iff, truthy_true in Ho.
  destruct (strip_shape t) as [E|[Hs He]]; [contradiction|].
  split; [apply split_entries_without_sep|].
  split; [apply split_not_nil|].
  apply split_trimmed_ends; assumption.
Qed.

Lemma questions_entries_shape_witness :
  Forall (fun q => ~ In NL q) [lit "1. Why?"; lit "2. How?"] /\
  [lit "1. Why?"; lit "2. How?"] <> [] /\
  has_visible (hd [] [lit "1. Why?"; lit "2. How?"]) = true /\
  has_visible (last [lit "1. Why?"; lit "2. How?"] []) = true.
Proof.
  apply (questions_entries_shape
           (answering (Return (Some led_by_blank_line_reply))) (lit "text") (initial [])).
  vm_compute. reflexivity.
Defined.

(** * Beyond the claims *)

(** ** More on trimming *)

Lemma lstrip_all_space (s : str) :
  forallb isspace s = true -> lstrip s = [].
Proof.
  unfold lstrip. induction s as [|c s IH]; simpl; [reflexivity|].
  destruct (isspace c); simpl; [exact IH|discriminate].
Qed.

Lemma lstrip_app (s t : str) :
  lstrip (s ++ t) = if forallb isspace s then lstrip t else lstrip s ++ t.
Proof.
  unfold lstrip. induction s as [|c s IH]; simpl; [reflexivity|].
  destruct (isspace c); simpl; [exact IH|reflexivity].
Qed.

Lemma rstrip_snoc_space (s : str) (c : char) :
  isspace c = true -> rstrip (s ++ [c]) = rstrip s.
Proof.
  intros H. unfold rstrip. rewrite rev_app_distr. simpl. now rewrite H.
Qed.

(** A newline at the end does not survive the trimming. *)
Lemma strip_snoc_NL (s : str) : strip (s ++ [NL]) = strip s.
Proof.
  unfold strip. rewrite lstrip_app.
  destruct (forallb isspace s) eqn:E.
  - rewrite (lstrip_all_space s E). reflexivity.
  - apply rstrip_snoc_space. reflexivity.
Qed.

Lemma ocr_output_join (scans : list str) :
  scans <> [] -> ocr_output scans = join [NL] scans ++ [NL].
Proof.
  unfold ocr_output.
  induction scans as [|t scans IH]; [congruence|]. intros _.
  destruct scans as [|t' scans]; [simpl; now rewrite app_nil_r|].
  cbn [map List.concat]. cbn [map List.concat] in IH.
  rewrite IH by discriminate.
  change (join [NL] (t :: t' :: scans)) with (t ++ [NL] ++ join [NL] (t' :: scans)).
  now rewrite <- !app_assoc.
Qed.

Lemma strip_ocr_output (scans : list str) :
  strip (ocr_output scans) = strip (join [NL] scans).
Proof.
  destruct scans as [|t scans]; [reflexivity|].
  rewrite ocr_output_join by discriminate. apply strip_snoc_NL.
Qed.

(** ** More on text extraction *)

Lemma page_texts_raise (texts : list (option str)) (e : exn) (rest : list page) :
  page_texts (map (fun t => mkPage (Return t)) texts ++ mkPage (Raise e) :: rest)
  = Raise e.
Proof.
  induction texts as [|t texts IH]; simpl; [reflexivity|].
  destruct t as [[|c t]|]; simpl; rewrite IH; reflexivity.
Qed.

Lemma ocr_loop_raise (scans : list str) (e : exn) (rest : list image)
    (acc : str) (s : state) :
  ocr_loop (map (fun t => mkImage (Return t)) scans ++ mkImage (Raise e) :: rest)
    acc s
  = (Raise e,
     mkState (files s) (trace s ++ repeat ImageToString (S (List.length scans)))
       (temp_file_path s)).
Proof.
  revert acc s. induction scans as [|t scans IH]; intros acc s; simpl.
  - reflexivity.
  - unfold bind, pytesseract.image_to_string, emit, lift. simpl.
    unfold bind, pytesseract.image_to_string, emit, lift in IH.
    rewrite IH. simpl. rewrite <- app_assoc. reflexivity.
Qed.

Lemma ocr_loop_trace (imgs : list image) (acc : str) (s : state) :
  exists k,
    trace (snd (ocr_loop imgs acc s)) = trace s ++ repeat ImageToString k.
Proof.
  revert acc s. induction imgs as [|i imgs IH]; intros acc s; simpl.
  - exists 0. simpl. now rewrite app_nil_r.
  - unfold bind, pytesseract.image_to_string, emit, lift. simpl.
    destruct (image_to_string i) as [t|e]; simpl.
    + destruct (IH (acc ++ t ++ [NL])
                  (mkState (files s) (trace s ++ [ImageToString]) (temp_file_path s)))
        as [k Hk].
      exists (S k). rewrite Hk. simpl. now rewrite <- app_assoc.
    + exists 1. reflexivity.
Qed.

Lemma no_error_in_ocr_events (k : nat) :
  existsb is_error (repeat ImageToString k) = false.
Proof. induction k; simpl; auto. Qed.

Lemma only_ocr_events (k : nat) :
  forallb extraction_event (repeat ImageToString k) = true.
Proof. induction k; simpl; auto. Qed.

Lemma extract_text_stored_returns (pdf_file : UploadedFile) (s : state) :
  stored pdf_file ->
  exists r, fst (extract_text_from_pdf pdf_file s) = Return r.
Proof.
  intros Hst.
  unfold extract_text_from_pdf, try_finally, try_except, extract_text_except.
  unfold enter_frame, bind at 1. simpl.
  match goal with |- context [extract_text_try pdf_file ?s0] =>
    destruct (extract_text_try_stored pdf_file s0 Hst) as [Hf Ht];
    destruct (extract_text_try pdf_file s0) as [[o|e] [fs1 t1 l1]] end;
  simpl in Hf, Ht; subst fs1 l1; unfold_calls; simpl;
  rewrite extract_text_finally_bound by (now left); simpl; eauto.
Qed.

(** X1.  Once the upload has reached the temporary file, the call returns
    (a text or [None], never an exception) and the disk is as it was
    before: the temporary file is gone whatever PyPDF2 and the OCR
    libraries did. *)
Theorem stored_upload_returns_and_cleans (pdf_file : UploadedFile) (s : state) :
  stored pdf_file ->
  (exists r, fst (extract_text_from_pdf pdf_file s) = Return r) /\
  files (snd (extract_text_from_pdf pdf_file s)) = files s.
Proof.
  intros Hst. split.
  - now apply extract_text_stored_returns.
  - now apply extract_text_removes_stored_file.
Qed.

Lemma stored_upload_returns_and_cleans_witness :
  (exists r,
     fst (extract_text_from_pdf
            (mkUpload (Return tt) (Return tt) (Return tt)
               (Raise (Exception (lit "EOF marker not found"))) (Return []))
            (initial [7; 3])) = Return r) /\
  files (snd (extract_text_from_pdf
                (mkUpload (Return tt) (Return tt) (Return tt)
                   (Raise (Exception (lit "EOF marker not found"))) (Return []))
                (initial [7; 3]))) = files (initial [7; 3]).
Proof.
  apply stored_upload_returns_and_cleans.
  repeat split; reflexivity.
Defined.

Lemma extract_text_unstored (pdf_file : UploadedFile) (e : exn) (s : state) :
  storing_error pdf_file = Some e ->
  extract_text_from_pdf pdf_file s =
  (Raise (UnboundLocalError (lit "temp_file_path")),
   mkState
     (if temp_file_created pdf_file
      then tempfile.fresh (files s) :: files s
      else files s)
     (trace s ++ [StError (lit "Error reading PDF: " ++ str_of_exn e)])
     None).
Proof.
  unfold storing_error, temp_file_created.
  unfold extract_text_from_pdf, try_finally, try_except, extract_text_except,
    extract_text_try.
  unfold_calls.
  destruct (tmp_created pdf_file) as [[]|e1]; simpl.
  - destruct (bytes_read pdf_file) as [[]|e2]; simpl.
    + destruct (bytes_written pdf_file) as [[]|e3]; simpl; [discriminate|].
      intros [= ->]. reflexivity.
    + intros [= ->]. reflexivity.
  - intros [= ->]. reflexivity.
Qed.


(** X2.  When creating the temporary file, reading the upload or writing
    it raises, the error is shown and then the call itself ends with
    [UnboundLocalError] instead of returning [None]; the temporary file,
    if it was created, stays on disk, and no library is called. *)
Theorem failed_storing_raises (pdf_file : UploadedFile) (e : exn) (s : state) :
  storing_error pdf_file = Some e ->
  extract_text_from_pdf pdf_file s =
  (Raise (UnboundLocalError (lit "temp_file_path")),
   mkState
     (if temp_file_created pdf_file
      then tempfile.fresh (files s) :: files s
      else files s)
     (trace s ++ [StError (lit "Error reading PDF: " ++ str_of_exn e)])
     None).
Proof. apply extract_text_unstored. Qed.

Lemma failed_storing_raises_witness :
  extract_text_from_pdf
    (mkUpload (Return tt) (Raise (Exception (lit "closed file"))) (Return tt)
       (Return []) (Return []))
    (initial [2]) =
  (Raise (UnboundLocalError (lit "temp_file_path")),
   mkState [tempfile.fresh [2]; 2]
     [StError (lit "Error reading PDF: " ++ str_of_exn (Exception (lit "closed file")))]
     None).
Proof.
  apply (failed_storing_raises
           (mkUpload (Return tt) (Raise (Exception (lit "closed file"))) (Return tt)
              (Return []) (Return []))
           (Exception (lit "closed file")) (initial [2])).
  reflexivity.
Defined.

(** X3.  An exception of [extract_text] on one page throws away the text
    of all pages, those read before it included: the call returns [None]
    after showing the error, and OCR is not tried. *)
Theorem page_error_discards_text
    (pdf_file : UploadedFile) (texts : list (option str)) (e : exn)
    (rest : list page) (s : state) :
  stored pdf_file ->
  pages pdf_file =
    Return (map (fun t => mkPage (Return t)) texts ++ mkPage (Raise e) :: rest) ->
  extract_text_from_pdf pdf_file s =
  (Return None,
   mkState (files s)
     (trace s ++ [PdfReaderOpen (tempfile.fresh (files s));
                  StError (lit "Error reading PDF: " ++ str_of_exn e)])
     (Some (tempfile.fresh (files s)))).
Proof.
  intros (H1 & H2 & H3) Hp.
  unfold extract_text_from_pdf, try_finally, try_except, extract_text_except,
    extract_text_try.
  unfold_calls. rewrite H1, H2, H3, Hp. simpl.
  rewrite page_texts_raise. simpl.
  rewrite extract_text_finally_bound by (now left).
  rewrite remove_fresh, <- app_assoc. reflexivity.
Qed.

Lemma page_error_discards_text_witness :
  extract_text_from_pdf
    (mkUpload (Return tt) (Return tt) (Return tt)
       (Return [mkPage (Return (Some (lit "first page")));
                mkPage (Raise (Exception (lit "bad stream")))])
       (Return [mkImage (Return (lit "scan"))]))
    (initial []) =
  (Return None,
   mkState []
     [PdfReaderOpen (tempfile.fresh []);
      StError (lit "Error reading PDF: " ++ str_of_exn (Exception (lit "bad stream")))]
     (Some (tempfile.fresh []))).
Proof.
  apply (page_error_discards_text
           (mkUpload (Return tt) (Return tt) (Return tt)
              (Return [mkPage (Return (Some (lit "first page")));
                       mkPage (Raise (Exception (lit "bad stream")))])
              (Return [mkImage (Return (lit "scan"))]))
           [Some (lit "first page")] (Exception (lit "bad stream")) []
           (initial [])).
  - repeat split; reflexivity.
  - reflexivity.
Defined.

(** X4.  In the OCR fallback an exception of [image_to_string] on one page
    image throws away what was recognised on the images before it: the
    call returns [None] after showing the error. *)
Theorem ocr_error_discards_text
    (pdf_file : UploadedFile) (texts : list (option str)) (scans : list str)
    (e : exn) (rest : list image) (s : state) :
  stored pdf_file ->
  pages pdf_file = Return (map (fun t => mkPage (Return t)) texts) ->
  strip (join [NL] (non_empty_texts texts)) = [] ->
  images pdf_file =
    Return (map (fun t => mkImage (Return t)) scans ++ mkImage (Raise e) :: rest) ->
  extract_text_from_pdf pdf_file s =
  (Return None,
   mkState (files s)
     (trace s
        ++ [PdfReaderOpen (tempfile.fresh (files s));
            StWarning (lit "No text could be extracted from the PDF. Attempting OCR...");
            ConvertFromPath (tempfile.fresh (files s))]
        ++ repeat ImageToString (S (List.length scans))
        ++ [StError (lit "Error reading PDF: " ++ str_of_exn e)])
     (Some (tempfile.fresh (files s)))).
Proof.
  intros (H1 & H2 & H3) Hp Hblank Hi.
  unfold extract_text_from_pdf, try_finally, try_except, extract_text_except,
    extract_text_try.
  unfold_calls. rewrite H1, H2, H3, Hp. simpl.
  rewrite page_texts_answers. simpl. rewrite Hblank, Hi. simpl.
  rewrite ocr_loop_raise. simpl.
  rewrite extract_text_finally_bound by (now left).
  rewrite remove_fresh. simpl. rewrite <- !app_assoc. reflexivity.
Qed.

Lemma ocr_error_discards_text_witness :
  extract_text_from_pdf
    (mkUpload (Return tt) (Return tt) (Return tt)
       (Return (map (fun t => mkPage (Return t)) [None; None]))
       (Return (map (fun t => mkImage (Return t)) [lit "page one"]
                  ++ mkImage (Raise (Exception (lit "tesseract is not installed")))
                  :: [])))
    (initial []) =
  (Return None,
   mkState (files (initial []))
     (trace (initial [])
        ++ [PdfReaderOpen (tempfile.fresh (files (initial [])));
            StWarning (lit "No text could be extracted from the PDF. Attempting OCR...");
            ConvertFromPath (tempfile.fresh (files (initial [])))]
        ++ repeat ImageToString (S (List.length [lit "page one"]))
        ++ [StError (lit "Error reading PDF: "
                       ++ str_of_exn (Exception (lit "tesseract is not installed")))])
     (Some (tempfile.fresh (files (initial []))))).
Proof.
  apply (ocr_error_discards_text
           (mkUpload (Return tt) (Return tt) (Return tt)
              (Return (map (fun t => mkPage (Return t)) [None; None]))
              (Return (map (fun t => mkImage (Return t)) [lit "page one"]
                         ++ mkImage (Raise (Exception (lit "tesseract is not installed")))
                         :: [])))
           [None; None] [lit "page one"]
           (Exception (lit "tesseract is not installed")) [] (initial [])).
  - repeat split; reflexivity.
  - reflexivity.
  - reflexivity.
  - reflexivity.
Defined.

(** X5.  When no page has embedded text left after trimming and OCR finds
    something, the result is the OCR text of all page images, in page
    order, joined by newlines and trimmed; pages on which OCR found
    nothing are not left out, they leave an empty line.  The libraries are
    called in this order: the PDF is opened, the warning is shown, the
    pages are rasterised, and OCR runs once per page image. *)
Theorem ocr_fallback_returns_trimmed_scans
    (texts : list (option str)) (scans : list str) (s : state) :
  strip (join [NL] (non_empty_texts texts)) = [] ->
  strip (join [NL] scans) <> [] ->
  extract_text_from_pdf (document texts scans) s =
  (Return (Some (strip (join [NL] scans))),
   mkState (files s)
     (trace s
        ++ [PdfReaderOpen (tempfile.fresh (files s));
            StWarning (lit "No text could be extracted from the PDF. Attempting OCR...");
            ConvertFromPath (tempfile.fresh (files s))]
        ++ repeat ImageToString (List.length scans))
     (Some (tempfile.fresh (files s)))).
Proof.
  intros Hblank Hscan.
  pose proof (extract_text_of_document texts scans s) as H. cbv zeta in H.
  rewrite H, Hblank, strip_ocr_output.
  apply truthy_true in Hscan. rewrite Hscan. simpl.
  rewrite <- !app_assoc. reflexivity.
Qed.

Lemma ocr_fallback_returns_trimmed_scans_witness :
  extract_text_from_pdf (document [None; Some (lit " ")] [lit "one"; []; lit "three "])
    (initial []) =
  (Return (Some (strip (join [NL] [lit "one"; []; lit "three "]))),
   mkState (files (initial []))
     (trace (initial [])
        ++ [PdfReaderOpen (tempfile.fresh (files (initial [])));
            StWarning (lit "No text could be extracted from the PDF. Attempting OCR...");
            ConvertFromPath (tempfile.fresh (files (initial [])))]
        ++ repeat ImageToString (List.length [lit "one"; []; lit "three "]))
     (Some (tempfile.fresh (files (initial []))))).
Proof.
  apply (ocr_fallback_returns_trimmed_scans
           [None; Some (lit " ")] [lit "one"; []; lit "three "] (initial [])).
  - vm_compute. reflexivity.
  - vm_compute. discriminate.
Defined.

Lemma extract_text_from_pdf_entered (pdf_file : UploadedFile) (s : state) :
  extract_text_from_pdf pdf_file s =
  try_finally (try_except (extract_text_try pdf_file) extract_text_except)
    extract_text_finally (mkState (files s) (trace s) None).
Proof. reflexivity. Qed.

Lemma extract_text_try_events (pdf_file : UploadedFile) (s : state) :
  exists new,
    trace (snd (extract_text_try pdf_file s)) = trace s ++ new /\
    forallb extraction_event new = true /\
    existsb is_error new =
      match fst (extract_text_try pdf_file s) with
      | Return None => true
      | _ => false
      end.
Proof.
  unfold extract_text_try. unfold_calls.
  destruct (tmp_created pdf_file) as [[]|e]; simpl;
    [|exists []; now rewrite app_nil_r].
  destruct (bytes_read pdf_file) as [[]|e]; simpl;
    [|exists []; now rewrite app_nil_r].
  destruct (bytes_written pdf_file) as [[]|e]; simpl;
    [|exists []; now rewrite app_nil_r].
  destruct (pages pdf_file) as [ps|e]; simpl;
    [|eexists; repeat split; reflexivity].
  destruct (page_texts ps) as [ts|e]; simpl;
    [|eexists; repeat split; reflexivity].
  destruct (truthy (strip (join [NL] ts))); simpl;
    [eexists; repeat split; reflexivity|].
  destruct (images pdf_file) as [imgs|e]; simpl.
  - match goal with |- context [ocr_loop imgs [] ?s0] =>
      destruct (ocr_loop_trace imgs [] s0) as [k Hk];
      destruct (ocr_loop imgs [] s0) as [[t|e] [f1 t1 l1]] end;
    simpl in Hk; subst t1; simpl.
    + destruct (truthy (strip t)); simpl; rewrite <- !app_assoc;
        eexists; (split; [reflexivity|]); simpl;
        rewrite ?forallb_app, ?existsb_app,
          only_ocr_events, no_error_in_ocr_events; split; reflexivity.
    + rewrite <- !app_assoc. eexists. split; [reflexivity|]. simpl.
      rewrite only_ocr_events, no_error_in_ocr_events. split; reflexivity.
  - rewrite <- !app_assoc. eexists. repeat split; reflexivity.
Qed.

(** What a call of [extract_text_from_pdf] leaves in the trace. *)
Lemma extract_text_events (pdf_file : UploadedFile) (s : state) :
  exists new,
    trace (snd (extract_text_from_pdf pdf_file s)) = trace s ++ new /\
    forallb extraction_event new = true /\
    (fst (extract_text_from_pdf pdf_file s) = Return None ->
     existsb is_error new = true) /\
    (forall r, fst (extract_text_from_pdf pdf_file s) = Return (Some r) ->
     existsb is_error new = false).
Proof.
  rewrite extract_text_from_pdf_entered.
  unfold try_finally, try_except, extract_text_except.
  match goal with |- context [extract_text_try pdf_file ?s0] =>
    destruct (extract_text_try_events pdf_file s0) as (new & Ht & Hc & He);
    destruct (extract_text_try pdf_file s0) as [[o|e] s1] end;
  simpl in Ht, He.
  - pose proof (extract_text_finally_trace s1) as Hf.
    destruct (extract_text_finally s1) as [[[]|e] s2]; simpl in *;
      exists new; rewrite Hf, Ht; (split; [reflexivity|]);
      (split; [exact Hc|]);
      (split; [|intros r]); intros [= ->]; exact He.
  - unfold_calls. simpl.
    match goal with |- context [extract_text_finally ?s2] =>
      pose proof (extract_text_finally_trace s2) as Hf;
      destruct (extract_text_finally s2) as [[[]|e'] s3] end; simpl in *;
    exists (new ++ [StError (lit "Error reading PDF: " ++ str_of_exn e)]);
    rewrite Hf, Ht, <- app_assoc; (split; [reflexivity|]);
    (split; [rewrite forallb_app, Hc; reflexivity|]);
    (split; [|intros r]); intros [= ]; rewrite existsb_app; simpl;
    apply orb_true_r.
Qed.

(** X6.  Extraction does not fail in silence: among the events of a call
    there is an error message when the call returns [None], and there is
    none when it returns a text. *)
Theorem extraction_failure_is_reported (pdf_file : UploadedFile) (s : state) :
  exists new,
    trace (snd (extract_text_from_pdf pdf_file s)) = trace s ++ new /\
    (fst (extract_text_from_pdf pdf_file s) = Return None ->
     existsb is_error new = true) /\
    (forall r, fst (extract_text_from_pdf pdf_file s) = Return (Some r) ->
     existsb is_error new = false).
Proof.
  destruct (extract_text_events pdf_file s) as (new & Ht & _ & Hn & Hs).
  exists new. repeat split; assumption.
Qed.

Lemma extraction_failure_is_reported_witness :
  exists new,
    trace (snd (extract_text_from_pdf (document [None] [lit " "]) (initial [])))
      = trace (initial []) ++ new /\
    existsb is_error new = true.
Proof.
  destruct (extraction_failure_is_reported (document [None] [lit " "]) (initial []))
    as (new & Ht & Hn & _).
  exists new. split; [exact Ht|]. apply Hn. vm_compute. reflexivity.
Defined.

(** ** More on the generators *)

Lemma len_app (a b : str) : len (a ++ b) = (len a + len b)%Z.
Proof. unfold len. rewrite length_app. lia. Qed.

Lemma len_capped (text : str) :
  (len (capped text) <= 30003)%Z /\
  ((len text <= 30000)%Z -> capped text = text).
Proof.
  unfold capped, max_chars.
  destruct (Z.ltb_spec 30000 (len text)) as [Hlong|Hshort].
  - split; [|lia]. rewrite len_app. unfold slice_to, len in *.
    rewrite length_firstn. change (List.length (lit "...")) with 3. lia.
  - split; [lia|reflexivity].
Qed.

Lemma split_length (sep : char) (s : str) :
  List.length (split sep s) = S (count_occ N.eq_dec s sep).
Proof.
  induction s as [|c s IH]; [reflexivity|].
  cbn [split count_occ].
  destruct (N.eqb_spec c sep) as [->|Hc].
  - destruct (N.eq_dec sep sep) as [_|Hn]; [|congruence].
    simpl. now rewrite IH.
  - destruct (N.eq_dec c sep) as [E|_]; [congruence|].
    destruct (split sep s) as [|h t]; [discriminate|].
    simpl in *. exact IH.
Qed.

(** X7.  [create_mindmap_markdown] lets no exception out and touches
    neither the disk nor the caller's variables; it returns [None] exactly
    when it has shown an error message, and an exception of the model call
    is shown with its text. *)
Theorem outline_failure_is_reported (g : Genai) (text : str) (s : state) :
  exists r new,
    create_mindmap_markdown g text s =
      (Return r, mkState (files s) (trace s ++ new) (temp_file_path s)) /\
    (existsb is_error new = true <-> r = None) /\
    (forall e,
       generate_content g model_name (outline_request text) = Raise e ->
       In (StError (lit "Error generating mindmap: " ++ str_of_exn e)) new).
Proof.
  rewrite create_mindmap_markdown_run. unfold outline_call.
  destruct (generate_content g model_name (outline_request text)) as [reply|e];
    [destruct (reply_is_empty reply)|];
    destruct (max_chars <? len text)%Z; simpl;
    rewrite <- ?app_assoc; do 2 eexists;
    (split; [reflexivity|]); simpl;
    (split; [split; congruence|]);
    intros e' He'; try discriminate;
    inversion He'; subst; simpl; tauto.
Qed.

Lemma outline_failure_is_reported_witness :
  exists r new,
    create_mindmap_markdown (answering (Raise (Exception (lit "quota exceeded"))))
      (lit "text") (initial [])
    = (Return r,
       mkState (files (initial [])) (trace (initial []) ++ new)
         (temp_file_path (initial []))) /\
    In (StError (lit "Error generating mindmap: "
                   ++ str_of_exn (Exception (lit "quota exceeded")))) new.
Proof.
  destruct (outline_failure_is_reported
              (answering (Raise (Exception (lit "quota exceeded"))))
              (lit "text") (initial [])) as (r & new & Hrun & _ & He).
  exists r, new. split; [exact Hrun|]. apply He. reflexivity.
Defined.

(** X8.  [generate_questions_from_text] lets no exception out and touches
    neither the disk nor the caller's variables; it returns [None] exactly
    when it has shown an error message, and an exception of the model call
    is shown with its text. *)
Theorem questions_failure_is_reported (g : Genai) (text : str) (s : state) :
  exists r new,
    generate_questions_from_text g text s =
      (Return r, mkState (files s) (trace s ++ new) (temp_file_path s)) /\
    (existsb is_error new = true <-> r = None) /\
    (forall e,
       generate_content g model_name (questions_request text) = Raise e ->
       In (StError (lit "Error generating questions: " ++ str_of_exn e)) new).
Proof.
  rewrite generate_questions_run.
  destruct (generate_content g model_name (questions_request text)) as [reply|e];
    [destruct (reply_is_empty reply)|]; simpl;
    rewrite <- ?app_assoc; do 2 eexists;
    (split; [reflexivity|]); simpl;
    (split; [split; congruence|]);
    intros e' He'; try discriminate;
    inversion He'; subst; simpl; tauto.
Qed.

Lemma questions_failure_is_reported_witness :
  exists r new,
    generate_questions_from_text (answering (Raise (Exception (lit "quota exceeded"))))
      (lit "text") (initial [])
    = (Return r,
       mkState (files (initial [])) (trace (initial []) ++ new)
         (temp_file_path (initial []))) /\
    In (StError (lit "Error generating questions: "
                   ++ str_of_exn (Exception (lit "quota exceeded")))) new.
Proof.
  destruct (questions_failure_is_reported
              (answering (Raise (Exception (lit "quota exceeded"))))
              (lit "text") (initial [])) as (r & new & Hrun & _ & He).
  exists r, new. split; [exact Hrun|]. apply He. reflexivity.
Defined.

(** X9.  An outline that [create_mindmap_markdown] returns is not empty
    and is left unchanged by trimming, so the test [if markdown_content:]
    of [main] lets every returned outline through. *)
Theorem outline_result_is_trimmed (g : Genai) (text : str) (s : state) (m : str) :
  fst (create_mindmap_markdown g text s) = Return (Some m) ->
  strip m = m /\ m <> [] /\ truthy_opt (Some m) = true.
Proof.
  rewrite create_mindmap_markdown_run.
  destruct (generate_content g model_name (outline_request text)) as [o|e];
    [|discriminate].
  destruct (reply_is_empty o) eqn:Ho; [discriminate|].
  simpl. intros [= <-].
  destruct o as [t|]; [|discriminate]. simpl in *.
  apply orb_false_iff in Ho. destruct Ho as [_ Ho].
  apply negb_false_iff in Ho.
  repeat split; [apply strip_idempotent|now apply truthy_true|exact Ho].
Qed.

Lemma outline_result_is_trimmed_witness :
  strip (lit "# Topic") = lit "# Topic" /\ lit "# Topic" <> [] /\
  truthy_opt (Some (lit "# Topic")) = true.
Proof.
  apply (outline_result_is_trimmed
           (answering (Return (Some ([NL] ++ lit "# Topic" ++ [NL]))))
           (lit "text") (initial [])).
  vm_compute. reflexivity.
Defined.

(** X10.  The prompt that outline generation hands to the model is the
    fixed instruction text of 720 characters around the text, so it never
    has more than 30723 characters; a text of at most 30000 characters
    makes a prompt of 720 characters more than itself. *)
Theorem outline_prompt_is_bounded (g : Genai) (text : str) (s : state) :
  exists p,
    submitted (trace (snd (create_mindmap_markdown g text s)))
      = submitted (trace s) ++ [p] /\
    (len p <= 30723)%Z /\
    ((len text <= 30000)%Z -> len p = (720 + len text)%Z).
Proof.
  exists (outline_request text).
  split; [apply create_mindmap_markdown_submits|].
  unfold outline_request. rewrite format_outline_prompt, !len_app.
  change (len (firstn 634 outline_prompt)) with 634%Z.
  change (len (skipn 640 outline_prompt)) with 86%Z.
  destruct (len_capped text) as [Hb Hs].
  split; [lia|]. intros H. rewrite (Hs H). lia.
Qed.

Lemma outline_prompt_is_bounded_witness :
  exists p,
    submitted (trace (snd (create_mindmap_markdown
                             (answering (Return None)) (lit "short") (initial []))))
      = submitted (trace (initial [])) ++ [p] /\
    len p = (720 + len (lit "short"))%Z.
Proof.
  destruct (outline_prompt_is_bounded (answering (Return None)) (lit "short")
              (initial [])) as (p & Hp & _ & Hlen).
  exists p. split; [exact Hp|]. apply Hlen. vm_compute. discriminate.
Defined.

(** X11.  Question generation puts the whole text into its prompt,
    whatever its length: the prompt is the fixed instruction text of 265
    characters around the unmodified text.  No cap applies here. *)
Theorem questions_prompt_has_whole_text (g : Genai) (text : str) (s : state) :
  submitted (trace (snd (generate_questions_from_text g text s)))
    = submitted (trace s)
        ++ [firstn 206 questions_prompt ++ text ++ skipn 212 questions_prompt] /\
  len (firstn 206 questions_prompt ++ text ++ skipn 212 questions_prompt)
    = (265 + len text)%Z.
Proof.
  split.
  - rewrite generate_questions_submits. unfold questions_request.
    now rewrite format_questions_prompt.
  - rewrite !len_app.
    change (len (firstn 206 questions_prompt)) with 206%Z.
    change (len (skipn 212 questions_prompt)) with 59%Z.
    lia.
Qed.

(** X12.  The list of questions has one entry more than the trimmed reply
    has newlines: empty lines inside the reply are entries too. *)
Theorem questions_count (g : Genai) (text : str) (s : state) (qs : list str) :
  fst (generate_questions_from_text g text s) = Return (Some qs) ->
  exists t,
    generate_content g model_name (questions_request text) = Return (Some t) /\
    List.length qs = S (count_occ N.eq_dec (strip t) NL).
Proof.
  rewrite generate_questions_run.
  destruct (generate_content g model_name (questions_request text)) as [o|e];
    [|discriminate].
  destruct (reply_is_empty o) eqn:Ho; [discriminate|].
  simpl. intros [= <-].
  destruct o as [t|]; [|discriminate].
  exists t. split; [reflexivity|]. simpl. apply split_length.
Qed.

Lemma questions_count_witness :
  exists t,
    generate_content (answering (Return (Some (lit "Q1" ++ [NL; NL] ++ lit "Q2"))))
      model_name (questions_request (lit "text")) = Return (Some t) /\
    List.length [lit "Q1"; []; lit "Q2"] = S (count_occ N.eq_dec (strip t) NL).
Proof.
  apply (questions_count
           (answering (Return (Some (lit "Q1" ++ [NL; NL] ++ lit "Q2"))))
           (lit "text") (initial [])).
  vm_compute. reflexivity.
Defined.

(** ** The credential *)

(** X13.  [configure_genai] lets no exception out.  It answers [True]
    exactly when the key is set, not empty, and accepted by
    [genai.configure]; whenever it answers [False] it has shown an error;
    and with a key that is unset or empty it does not call
    [genai.configure] at all. *)
Theorem configure_genai_outcome (g : Genai) (k : option str) (s : state) :
  exists b new,
    configure_genai g k s =
      (Return b, mkState (files s) (trace s ++ new) (temp_file_path s)) /\
    (b = true <->
     exists key, k = Some key /\ key <> [] /\ configure g key = Return tt) /\
    (b = false -> existsb is_error new = true) /\
    (truthy_opt k = false -> new = [StError missing_key_message]).
Proof.
  unfold configure_genai, try_except. unfold_calls.
  destruct k as [[|c key]|]; simpl.
  - exists false, [StError missing_key_message]. repeat split; try discriminate.
    intros (key & [= <-] & Hn & _). congruence.
  - destruct (configure g (c :: key)) as [[]|e] eqn:E; simpl.
    + exists true, [GenaiConfigure (c :: key)].
      repeat split; try discriminate.
      intros _. exists (c :: key). repeat split; [discriminate|exact E].
    + exists false, [GenaiConfigure (c :: key);
                     StError (lit "Error configuring Google API: " ++ str_of_exn e)].
      rewrite <- app_assoc. repeat split; try discriminate.
      intros (key' & [= <-] & _ & H). congruence.
  - exists false, [StError missing_key_message]. repeat split; try discriminate.
    intros (key & [=] & _).
Qed.

Lemma configure_genai_outcome_witness :
  exists b new,
    configure_genai (answering (Return None)) (Some []) (initial [])
    = (Return b,
       mkState (files (initial [])) (trace (initial []) ++ new)
         (temp_file_path (initial []))) /\
    new = [StError missing_key_message].
Proof.
  destruct (configure_genai_outcome (answering (Return None)) (Some []) (initial []))
    as (b & new & Hrun & _ & _ & Hm).
  exists b, new. split; [exact Hrun|]. apply Hm. reflexivity.
Defined.

(** ** More on the script *)

#[local] Arguments mindmap_tabs : simpl never.
#[local] Arguments questions_tab : simpl never.
#[local] Arguments create_mindmap_markdown : simpl never.
#[local] Arguments generate_questions_from_text : simpl never.
#[local] Arguments extract_text_from_pdf : simpl never.
#[local] Arguments configure_genai : simpl never.
#[local] Arguments create_markmap_html : simpl never.
#[local] Arguments outline_request : simpl never.
#[local] Arguments questions_request : simpl never.

Lemma extraction_events_are_plain (new : list event) :
  forallb extraction_event new = true ->
  filter is_widget new = [] /\ submitted new = [] /\ existsb is_tabs new = false.
Proof.
  induction new as [|e new IH]; simpl; [auto|].
  intros H. apply andb_true_iff in H. destruct H as [He Hn].
  destruct (IH Hn) as (H1 & H2 & H3).
  destruct e; simpl in *; try discriminate; auto.
Qed.

Lemma extract_text_result_shape (pdf_file : UploadedFile) (s : state) (r : str) :
  fst (extract_text_from_pdf pdf_file s) = Return (Some r) ->
  strip r = r /\ r <> [] /\ truthy r = true.
Proof.
  intros H. apply extract_text_result_from_try in H. destruct H as [s0 H].
  apply extract_text_try_result in H. destruct H as (t & -> & Ht).
  repeat split; [apply strip_idempotent|now apply truthy_true|exact Ht].
Qed.

Lemma shown_questions_run (f : str -> str) (qs : list str) (s : state) :
  for_each qs (fun question => st.markdown (f question)) s =
  (Return tt,
   mkState (files s)
     (trace s ++ map (fun question => StMarkdown (f question)) qs)
     (temp_file_path s)).
Proof.
  revert s. induction qs as [|q qs IH]; intros s; simpl.
  - unfold ret. rewrite app_nil_r. now destruct s.
  - unfold bind, st.markdown, emit. unfold st.markdown, emit in IH.
    rewrite IH. simpl. now rewrite <- app_assoc.
Qed.

Lemma shown_questions_are_plain (f : str -> str) (qs : list str) :
  filter is_widget (map (fun question => StMarkdown (f question)) qs) = [] /\
  submitted (map (fun question => StMarkdown (f question)) qs) = [].
Proof. induction qs as [|q qs [H1 H2]]; simpl; auto. Qed.

Lemma configure_genai_events (g : Genai) (k : option str) (s : state) :
  exists b new,
    configure_genai g k s =
      (Return b, mkState (files s) (trace s ++ new) (temp_file_path s)) /\
    submitted new = [] /\ filter is_widget new = [] /\
    existsb is_tabs new = false /\
    (b = false -> existsb is_error new = true).
Proof.
  unfold configure_genai, try_except. unfold_calls.
  destruct k as [[|c key]|]; simpl.
  - exists false, [StError missing_key_message]. repeat split; reflexivity.
  - destruct (configure g (c :: key)) as [[]|e]; simpl.
    + exists true, [GenaiConfigure (c :: key)]. repeat split; discriminate.
    + exists false, [GenaiConfigure (c :: key);
                     StError (lit "Error configuring Google API: " ++ str_of_exn e)].
      rewrite <- app_assoc. repeat split; reflexivity.
  - exists false, [StError missing_key_message]. repeat split; reflexivity.
Qed.

Lemma create_mindmap_markdown_events (g : Genai) (text : str) (s : state) :
  exists r new,
    create_mindmap_markdown g text s =
      (Return r, mkState (files s) (trace s ++ new) (temp_file_path s)) /\
    submitted new = [outline_request text] /\
    filter is_widget new = [] /\
    existsb is_tabs new = false /\
    (r = None -> existsb is_error new = true) /\
    (forall m, r = Some m -> truthy_opt r = true /\ strip m = m /\ m <> []).
Proof.
  rewrite create_mindmap_markdown_run. unfold outline_call.
  destruct (generate_content g model_name (outline_request text)) as [reply|e].
  - destruct (reply_is_empty reply) eqn:Ho.
    + destruct (max_chars <? len text)%Z; simpl; rewrite <- ?app_assoc;
        do 2 eexists; (split; [reflexivity|]);
        (split; [reflexivity|]); (split; [reflexivity|]);
        (split; [reflexivity|]); (split; [reflexivity|]);
        intros m H; discriminate.
    + assert (Hm : truthy (response_text_strip reply) = true /\
                   strip (response_text_strip reply) = response_text_strip reply).
      { destruct reply as [t|]; [|discriminate]. simpl in *.
        apply orb_false_iff in Ho. destruct Ho as [_ Ho].
        apply negb_false_iff in Ho. split; [exact Ho|apply strip_idempotent]. }
      destruct Hm as [Hm1 Hm2].
      destruct (max_chars <? len text)%Z; simpl; rewrite <- ?app_assoc;
        do 2 eexists; (split; [reflexivity|]);
        (split; [reflexivity|]); (split; [reflexivity|]);
        (split; [reflexivity|]); (split; [discriminate|]);
        intros m H; injection H as <-;
        (split; [exact Hm1|]); (split; [exact Hm2|]);
        now apply truthy_true.
  - destruct (max_chars <? len text)%Z; simpl; rewrite <- ?app_assoc;
      do 2 eexists; (split; [reflexivity|]);
      (split; [reflexivity|]); (split; [reflexivity|]);
      (split; [reflexivity|]); (split; [reflexivity|]);
      intros m H; discriminate.
Qed.

Lemma questions_tab_run (ss : session) (text : str) (s : state) :
  exists new,
    questions_tab ss text s =
      (Return tt, mkState (files s) (trace s ++ new) (temp_file_path s)) /\
    filter is_widget new = [] /\
    submitted new =
      (if generate_questions_clicked ss then [questions_request text] else []).
Proof.
  unfold questions_tab, st.subheader, st.button, st.spinner, st.error.
  unfold emit, bind, ret. simpl.
  destruct (generate_questions_clicked ss); simpl.
  - rewrite generate_questions_run. simpl.
    destruct (generate_content (client ss) model_name (questions_request text))
      as [reply|e]; [destruct (reply_is_empty reply)|]; simpl.
    + rewrite <- !app_assoc. eexists. repeat split; reflexivity.
    + pose proof (split_not_nil NL (response_text_strip reply)) as Hn.
      destruct (split NL (response_text_strip reply)) as [|q qs]; [congruence|].
      cbv beta iota. rewrite shown_questions_run.
      cbn [files trace temp_file_path]. rewrite <- !app_assoc.
      eexists. split; [reflexivity|].
      rewrite !filter_app, !submitted_app.
      rewrite (proj1 (shown_questions_are_plain _ _)).
      rewrite (proj2 (shown_questions_are_plain _ _)).
      split; reflexivity.
    + rewrite <- !app_assoc. eexists. repeat split; reflexivity.
  - rewrite <- !app_assoc. eexists. repeat split; reflexivity.
Qed.

Lemma mindmap_tabs_run (ss : session) (text m : str) (s : state) :
  exists new,
    mindmap_tabs ss text m s =
      (Return tt, mkState (files s) (trace s ++ new) (temp_file_path s)) /\
    filter is_widget new = mindmap_widgets m /\
    existsb is_tabs new = true /\
    submitted new =
      (if generate_questions_clicked ss then [questions_request text] else []).
Proof.
  unfold mindmap_tabs, st.tabs, st.subheader, st.download_button, st.text_area,
    components.html.
  unfold emit, bind. simpl.
  match goal with |- context [questions_tab ss text ?s0] =>
    destruct (questions_tab_run ss text s0) as (qnew & -> & Hw & Hs) end.
  simpl. rewrite <- !app_assoc. eexists. split; [reflexivity|].
  simpl. rewrite Hw, Hs. repeat split; reflexivity.
Qed.

(** [main] with the part under [if markdown_content:] named. *)
Lemma main_steps (ss : session) :
  main ss =
  (st.set_page_config (lit "wide") ;;
   st.title ([128196%N] ++ lit " PDF to Mindmap Converter") ;;
   st.markdown (lit "Convert your PDF content into an interactive mindmap.") ;;
   configured <- configure_genai (client ss) (API_KEY ss) ;;
   if negb configured then ret tt
   else
     uploaded <- st.file_uploader ([128229%N] ++ lit " Choose a PDF file") (lit "pdf")
                   (uploaded_file ss) ;;
     match uploaded with
     | None => ret tt
     | Some pdf_file =>
         st.spinner ([128260%N] ++ lit " Processing PDF and generating mindmap...") ;;
         text <- extract_text_from_pdf pdf_file ;;
         match text with
         | None => ret tt
         | Some text =>
             if negb (truthy text) then ret tt
             else
               st.info ([9989%N] ++ lit " Successfully extracted "
                          ++ format_int (len text) ++ lit " characters from PDF") ;;
               markdown_content <- create_mindmap_markdown (client ss) text ;;
               if negb (truthy_opt markdown_content) then ret tt
               else
                 mindmap_tabs ss text
                   (match markdown_content with Some m => m | None => [] end)
         end
     end).
Proof. reflexivity. Qed.

(** Everything the statements below need about one run of [main]. *)
Lemma main_summary (ss : session) (s : state) :
  exists r new fs' l',
    main ss s = (r, mkState fs' ((trace s ++ page_header) ++ new) l') /\
    (submitted new = [] \/
     exists text,
       (exists pdf_file s0,
          uploaded_file ss = Some pdf_file /\
          fst (extract_text_from_pdf pdf_file s0) = Return (Some text)) /\
       strip text = text /\ text <> [] /\
       (submitted new = [outline_request text] \/
        (generate_questions_clicked ss = true /\
         submitted new = [outline_request text; questions_request text]))) /\
    (filter is_widget new = [] \/
     exists m,
       (exists text s1,
          fst (create_mindmap_markdown (client ss) text s1) = Return (Some m)) /\
       strip m = m /\ m <> [] /\ filter is_widget new = mindmap_widgets m) /\
    (uploaded_file ss <> None -> r = Return tt ->
     existsb is_tabs new = true \/ existsb is_error new = true) /\
    ((uploaded_file ss = None \/
      exists pdf_file, uploaded_file ss = Some pdf_file /\ stored pdf_file) ->
     r = Return tt /\ fs' = files s).
Proof.
  rewrite main_steps.
  unfold st.set_page_config, st.title, st.markdown, st.file_uploader, st.spinner,
    st.info.
  unfold emit, bind, ret. simpl.
  match goal with |- context [configure_genai ?g ?k ?s0] =>
    destruct (configure_genai_events g k s0)
      as (b & cnew & -> & Hcs & Hcw & Hct & Hce) end.
  simpl. destruct b; simpl.
  2:{ exists (Return tt), cnew, (files s), (temp_file_path s).
      rewrite <- !app_assoc. split; [reflexivity|].
      split; [now left|]. split; [now left|].
      split; [intros _ _; right; now apply Hce|]. intros _. now split. }
  destruct (uploaded_file ss) as [pdf_file|] eqn:Hup; simpl.
  2:{ eexists (Return tt), (cnew ++ [_]), (files s), (temp_file_path s).
      rewrite <- !app_assoc. split; [reflexivity|].
      rewrite submitted_app, filter_app, Hcs, Hcw. simpl.
      split; [now left|]. split; [now left|].
      split; [intros H; congruence|]. intros _. now split. }
  match goal with |- context [extract_text_from_pdf pdf_file ?s0] =>
    destruct (extract_text_events pdf_file s0) as (xnew & Hxt & Hxc & Hxn & _);
    pose proof (extract_text_result_shape pdf_file s0) as Hxr;
    pose proof (extract_text_stored_returns pdf_file s0) as Hxs;
    pose proof (extract_text_removes_stored_file pdf_file s0) as Hxf;
    destruct (extract_text_from_pdf pdf_file s0) as [xr [fs1 t1 l1]] eqn:Hx end.
  simpl in Hxt, Hxn, Hxr, Hxs, Hxf. subst t1.
  destruct (extraction_events_are_plain xnew Hxc) as (Hxw & Hxsub & Hxtabs).
  assert (Hclean : (Some pdf_file = None \/
                    exists p, Some pdf_file = Some p /\ stored p) ->
                   (exists o, xr = Return o) /\ fs1 = files s).
  { intros [H|(p & H & Hst)]; [discriminate|].
    injection H as <-. split; [now apply Hxs|now apply Hxf]. }
  destruct xr as [[text|]|e]; simpl.
  3:{ eexists (Raise e), (cnew ++ [_] ++ [_] ++ xnew), fs1, l1.
      rewrite <- !app_assoc. split; [reflexivity|].
      rewrite !submitted_app, !filter_app, Hcs, Hcw, Hxw, Hxsub. simpl.
      split; [now left|]. split; [now left|].
      split; [intros _ H; discriminate|].
      intros H. destruct (Hclean H) as [[o Ho] _]. discriminate. }
  2:{ eexists (Return tt), (cnew ++ [_] ++ [_] ++ xnew), fs1, l1.
      rewrite <- !app_assoc. split; [reflexivity|].
      rewrite !submitted_app, !filter_app, !existsb_app, Hcs, Hcw, Hxw, Hxsub.
      simpl.
      split; [now left|]. split; [now left|].
      split; [intros _ _; right; rewrite (Hxn eq_refl); apply orb_true_r|].
      intros H. destruct (Hclean H) as [_ ->]. now split. }
  destruct (Hxr text eq_refl) as (Htrim & Hne & Htruthy).
  assert (Hlink : exists p s0,
             Some pdf_file = Some p /\
             fst (extract_text_from_pdf p s0) = Return (Some text)).
  { exists pdf_file. eexists. split; [reflexivity|exact (f_equal fst Hx)]. }
  rewrite Htruthy. simpl.
  match goal with |- context [create_mindmap_markdown ?g text ?s0] =>
    destruct (create_mindmap_markdown_events g text s0)
      as (mr & mnew & Hmrun & Hms & Hmw & Hmt & Hme & Hmm) end.
  rewrite Hmrun. simpl. destruct mr as [m|]; simpl.
  2:{ eexists (Return tt), (cnew ++ [_] ++ [_] ++ xnew ++ [_] ++ mnew), fs1, l1.
      rewrite <- !app_assoc. split; [reflexivity|].
      rewrite !submitted_app, !filter_app, !existsb_app,
        Hcs, Hcw, Hxw, Hxsub, Hms, Hmw.
      simpl.
      split; [right; exists text; auto|]. split; [now left|].
      split; [intros _ _; right; rewrite (Hme eq_refl);
              rewrite ?orb_true_r; reflexivity|].
      intros H. destruct (Hclean H) as [_ ->]. now split. }
  destruct (Hmm m eq_refl) as (Hmtruthy & Hmtrim & Hmne).
  assert (Hmlink : exists text s1,
             fst (create_mindmap_markdown (client ss) text s1) = Return (Some m)).
  { exists text. eexists. exact (f_equal fst Hmrun). }
  simpl in Hmtruthy. rewrite Hmtruthy. simpl.
  match goal with |- context [mindmap_tabs ss text m ?s0] =>
    destruct (mindmap_tabs_run ss text m s0) as (tnew & -> & Htw & Htt & Hts) end.
  simpl.
  eexists (Return tt), (cnew ++ [_] ++ [_] ++ xnew ++ [_] ++ mnew ++ tnew), fs1, l1.
  rewrite <- !app_assoc. split; [reflexivity|].
  rewrite !submitted_app, !filter_app, !existsb_app,
    Hcs, Hcw, Hxw, Hxsub, Hms, Hmw, Htw, Hts, Htt.
  simpl.
  split.
  { right. exists text. repeat split; try assumption.
    destruct (generate_questions_clicked ss); [right|left]; auto. }
  split; [right; exists m; auto|].
  split; [intros _ _; left; rewrite ?orb_true_r; reflexivity|].
  intros H. destruct (Hclean H) as [_ ->]. now split.
Qed.

Lemma page_header_is_plain :
  submitted page_header = [] /\ filter is_widget page_header = [] /\
  existsb is_tabs page_header = false /\ existsb is_error page_header = false.
Proof. repeat split; reflexivity. Qed.

Lemma configure_genai_accepts (g : Genai) (key : str) (s : state) :
  key <> [] -> configure g key = Return tt ->
  configure_genai g (Some key) s =
  (Return true,
   mkState (files s) (trace s ++ [GenaiConfigure key]) (temp_file_path s)).
Proof.
  intros Hk Hc. unfold configure_genai, try_except. unfold_calls.
  destruct key as [|c key]; [congruence|]. simpl. rewrite Hc. reflexivity.
Qed.

(** X14.  The credential is read from [GOOGLE_API_KEY] and from nowhere
    else: when that variable is not set, the run ends with the missing-key
    error whatever the rest of the environment holds, also when
    [GENAI_API_KEY], the variable the error message tells the user to set,
    is set. *)
Theorem key_is_read_from_GOOGLE_API_KEY_only
    (env : environ) (g : Genai) (uploaded : option UploadedFile) (clicked : bool)
    (fs : list path) :
  getenv env (lit "GOOGLE_API_KEY") = None ->
  run_script env g uploaded clicked (initial fs) =
    (Return tt, mkState fs (page_header ++ [StError missing_key_message]) None) /\
  exists before after,
    missing_key_message = before ++ lit "GENAI_API_KEY" ++ after.
Proof.
  intros Hk. split.
  - unfold run_script. rewrite main_without_key; [reflexivity|].
    simpl. unfold load_API_KEY. now rewrite Hk.
  - exists (lit "API Key is missing. Please set the "),
      (lit " environment variable.").
    reflexivity.
Qed.

Lemma key_is_read_from_GOOGLE_API_KEY_only_witness :
  run_script
    (fun name => if str_eqb name (lit "GENAI_API_KEY") then Some (lit "secret") else None)
    (answering (Return (Some (lit "# Topic")))) (Some hello_pdf) false (initial [])
  = (Return tt, mkState [] (page_header ++ [StError missing_key_message]) None) /\
  exists before after,
    missing_key_message = before ++ lit "GENAI_API_KEY" ++ after.
Proof.
  apply (key_is_read_from_GOOGLE_API_KEY_only
           (fun name =>
              if str_eqb name (lit "GENAI_API_KEY") then Some (lit "secret") else None)
           (answering (Return (Some (lit "# Topic")))) (Some hello_pdf) false []).
  reflexivity.
Defined.

(** X15.  One run of the script hands at most two prompts to the model:
    none; or the outline prompt for the text that extraction returned for
    the upload; or that prompt followed by the questions prompt for the
    same text, and this only when the button was pressed.  The questions
    prompt never goes out without the outline prompt before it. *)
Theorem main_prompts (ss : session) (fs : list path) :
  submitted (trace (snd (main ss (initial fs)))) = [] \/
  exists text,
    (exists pdf_file s0,
       uploaded_file ss = Some pdf_file /\
       fst (extract_text_from_pdf pdf_file s0) = Return (Some text)) /\
    (submitted (trace (snd (main ss (initial fs)))) = [outline_request text] \/
     (generate_questions_clicked ss = true /\
      submitted (trace (snd (main ss (initial fs))))
        = [outline_request text; questions_request text])).
Proof.
  destruct (main_summary ss (initial fs)) as (r & new & fs' & l' & -> & Hp & _).
  cbn [snd trace initial app]. rewrite submitted_app.
  change (submitted page_header) with (@nil str). cbn [app].
  destruct Hp as [Hp|(text & Hlink & _ & _ & Hp)]; [now left|].
  right. exists text. split; [exact Hlink|exact Hp].
Qed.

(** X16.  When nothing is uploaded, or the upload reaches the temporary
    file, the run ends normally, whatever the libraries and the model do,
    and leaves the disk as it found it. *)
Theorem main_returns_and_cleans (ss : session) (s : state) :
  (uploaded_file ss = None \/
   exists pdf_file, uploaded_file ss = Some pdf_file /\ stored pdf_file) ->
  fst (main ss s) = Return tt /\ files (snd (main ss s)) = files s.
Proof.
  intros H.
  destruct (main_summary ss s) as (r & new & fs' & l' & -> & _ & _ & _ & Hc).
  destruct (Hc H) as [-> ->]. split; reflexivity.
Qed.

Lemma main_returns_and_cleans_witness :
  fst (main (mkSession (Some (lit "key")) (answering (Raise (Exception (lit "quota"))))
               (Some hello_pdf) true) (initial [5])) = Return tt /\
  files (snd (main (mkSession (Some (lit "key"))
                      (answering (Raise (Exception (lit "quota"))))
                      (Some hello_pdf) true) (initial [5]))) = files (initial [5]).
Proof.
  apply main_returns_and_cleans.
  right. exists hello_pdf. split; [reflexivity|]. repeat split; reflexivity.
Defined.

(** X17.  With a valid credential, an upload that cannot be put into the
    temporary file ends the whole run with [UnboundLocalError]: the script
    shows the error of the failed step and then stops with an exception
    instead of a message, and nothing is asked of the model. *)
Theorem main_crashes_when_storing_fails
    (ss : session) (key : str) (pdf_file : UploadedFile) (e : exn) (s : state) :
  API_KEY ss = Some key -> key <> [] -> configure (client ss) key = Return tt ->
  uploaded_file ss = Some pdf_file ->
  storing_error pdf_file = Some e ->
  fst (main ss s) = Raise (UnboundLocalError (lit "temp_file_path")) /\
  submitted (trace (snd (main ss s))) = submitted (trace s) /\
  exists before,
    trace (snd (main ss s))
      = before ++ [StError (lit "Error reading PDF: " ++ str_of_exn e)].
Proof.
  intros Hk Hne Hc Hup He.
  rewrite main_steps.
  unfold st.set_page_config, st.title, st.markdown, st.file_uploader, st.spinner,
    st.info.
  unfold emit, bind, ret. simpl.
  rewrite Hk, (configure_genai_accepts _ _ _ Hne Hc). simpl.
  rewrite Hup. simpl. rewrite (extract_text_unstored _ _ _ He). simpl.
  split; [reflexivity|]. split.
  - rewrite !submitted_app. simpl. now rewrite !app_nil_r.
  - eexists. reflexivity.
Qed.

Lemma main_crashes_when_storing_fails_witness :
  fst (main (mkSession (Some (lit "key")) (answering (Return None))
               (Some unwritable_upload) false) (initial []))
    = Raise (UnboundLocalError (lit "temp_file_path")) /\
  submitted (trace (snd (main (mkSession (Some (lit "key")) (answering (Return None))
                                 (Some unwritable_upload) false) (initial []))))
    = submitted (trace (initial [])) /\
  exists before,
    trace (snd (main (mkSession (Some (lit "key")) (answering (Return None))
                        (Some unwritable_upload) false) (initial [])))
      = before ++ [StError (lit "Error reading PDF: "
                              ++ str_of_exn (Exception (lit "No space left on device")))].
Proof.
  apply (main_crashes_when_storing_fails
           (mkSession (Some (lit "key")) (answering (Return None))
              (Some unwritable_upload) false)
           (lit "key") unwritable_upload
           (Exception (lit "No space left on device")) (initial [])).
  - reflexivity.
  - vm_compute. discriminate.
  - reflexivity.
  - reflexivity.
  - reflexivity.
Defined.

(** X18.  What a run offers of the mind map is all or nothing and of one
    piece: either no tab, download button, embedded page or text area is
    shown; or exactly the tabs, the HTML download, the embedded page, the
    markdown download and the text area, in this order, where the
    markdown is one outline that outline generation returned (so it is
    trimmed and not empty) and the downloaded HTML and the embedded page
    are both the rendering of that same outline. *)
Theorem main_page_is_of_one_piece (ss : session) (fs : list path) :
  filter is_widget (trace (snd (main ss (initial fs)))) = [] \/
  exists m,
    (exists text s1,
       fst (create_mindmap_markdown (client ss) text s1) = Return (Some m)) /\
    strip m = m /\ m <> [] /\
    filter is_widget (trace (snd (main ss (initial fs)))) = mindmap_widgets m.
Proof.
  destruct (main_summary ss (initial fs)) as (r & new & fs' & l' & -> & _ & Hw & _).
  cbn [snd trace initial app]. rewrite filter_app.
  change (filter is_widget page_header) with (@nil event). cbn [app].
  exact Hw.
Qed.

(** X19.  A run with an upload that ends normally has either shown the
    mind map tabs or shown an error message: it never ends empty-handed
    and silent. *)
Theorem main_failure_is_reported (ss : session) (fs : list path) :
  uploaded_file ss <> None ->
  fst (main ss (initial fs)) = Return tt ->
  existsb is_tabs (trace (snd (main ss (initial fs)))) = true \/
  existsb is_error (trace (snd (main ss (initial fs)))) = true.
Proof.
  destruct (main_summary ss (initial fs))
    as (r & new & fs' & l' & -> & _ & _ & Hr & _).
  cbn [fst snd trace initial app]. intros Hup Hret.
  rewrite !existsb_app.
  destruct (Hr Hup Hret) as [H|H]; [left|right]; rewrite H; apply orb_true_r.
Qed.

Lemma main_failure_is_reported_witness :
  existsb is_tabs
    (trace (snd (main (mkSession (Some (lit "key")) (answering (Return None))
                         (Some hello_pdf) false) (initial [])))) = true \/
  existsb is_error
    (trace (snd (main (mkSession (Some (lit "key")) (answering (Return None))
                         (Some hello_pdf) false) (initial [])))) = true.
Proof.
  apply (main_failure_is_reported
           (mkSession (Some (lit "key")) (answering (Return None))
              (Some hello_pdf) false) []).
  - discriminate.
  - vm_compute. reflexivity.
Defined.

(** ** More on the renderer *)

Lemma escape_once_plain (s : str) :
  ~ In BACKTICK s -> ~ In DOLLAR s -> escape_once s = s.
Proof.
  induction s as [|c s IH]; [reflexivity|].
  intros Hb Hd. cbn [escape_once].
  assert (Hc1 : (c =? BACKTICK)%N = false)
    by (apply N.eqb_neq; intros ->; apply Hb; now left).
  assert (Hc2 : (c =? DOLLAR)%N = false)
    by (apply N.eqb_neq; intros ->; apply Hd; now left).
  rewrite Hc1, Hc2. f_equal. apply IH; intros H; [apply Hb|apply Hd]; now right.
Qed.

(** X20.  The rendered page is a fixed text, the markdown with one
    backslash put before every backtick and before every dollar sign that
    an opening brace follows, and a second fixed text; the braces, percent
    signs and quotes of the markdown are not touched by the f-string.  A
    markdown without backtick and dollar sign stands in the page as it
    is. *)
Theorem rendered_page_frames_the_markdown :
  (forall markdown_content,
     create_markmap_html markdown_content =
     html_before ++ escape_once markdown_content ++ html_after) /\
  (forall markdown_content,
     ~ In BACKTICK markdown_content -> ~ In DOLLAR markdown_content ->
     create_markmap_html markdown_content =
     html_before ++ markdown_content ++ html_after).
Proof.
  split.
  - apply create_markmap_html_shape.
  - intros md Hb Hd. rewrite create_markmap_html_shape.
    now rewrite escape_once_plain.
Qed.

Lemma rendered_page_frames_the_markdown_witness :
  create_markmap_html (lit "# {Topic} 100%") =
  html_before ++ lit "# {Topic} 100%" ++ html_after.
Proof.
  apply (proj2 rendered_page_frames_the_markdown (lit "# {Topic} 100%"));
    vm_compute; intuition discriminate.
Defined.


